(** * kemalwaf: the WAF test suite (tools/waf_tester.py)

    A shallow embedding of the test harness: the HTTP client adapter
    [test_request], the runner [run_test] / [run_all_tests], the reporter
    [print_summary] and the entry point [main], followed by the properties
    of the specification that were checked against them.

    The target server, the wall clock and the date are the outside world of
    the program: they are collected in a record [world] that the program
    consults.  Everything the program changes (the list [self.results], the
    requests sent through the session, what is printed) lives in [state],
    threaded through a state-and-exception monad. *)

From Stdlib Require Import ZArith List String Ascii Bool Floats Lia.
From Stdlib Require Import Permutation Sorted DecimalString.
Import ListNotations.

Local Open Scope string_scope.
Local Open Scope list_scope.
Local Open Scope Z_scope.

(** ** Python values

    What [response.json()] can hand back, and what therefore ends up in the
    [rule_id] and [message] fields of a [TestResult]: the dataclass
    annotations are not enforced at run time. A [dict] is kept as an
    association list read from the front; strings are byte strings (UTF-8).
    The quoting below is that of ASCII text, which is all the suite
    quotes. *)

#[warnings="-register-all"]
Inductive pyval :=
| PyNone
| PyBool (b : bool)
| PyInt (z : Z)
| PyFloat (f : float)
| PyStr (s : string)
| PyList (l : list pyval)
| PyDict (d : list (string * pyval)).

(** [bool(v)]: what [if v] and [v or w] test. *)
Definition py_truthy (v : pyval) : bool :=
  match v with
  | PyNone => false
  | PyBool b => b
  | PyInt z => negb (z =? 0)
  | PyFloat f => negb (PrimFloat.eqb f 0%float)
  | PyStr s => negb (s =? "")%string
  | PyList l => match l with [] => false | _ :: _ => true end
  | PyDict d => match d with [] => false | _ :: _ => true end
  end.

(** [a or b] (both operands here have no effect, so evaluating [b] eagerly
    changes nothing). *)
Definition py_or (a b : pyval) : pyval := if py_truthy a then a else b.

Fixpoint assoc {A : Type} (k : string) (d : list (string * A)) : option A :=
  match d with
  | [] => None
  | (k', v) :: d' => if (k' =? k)%string then Some v else assoc k d'
  end.

(** [v.get(k)]: only a dict has the method; [None] stands for the
    AttributeError the call raises on anything else. *)
Definition py_get (v : pyval) (k : string) : option pyval :=
  match v with
  | PyDict d => Some match assoc k d with Some x => x | None => PyNone end
  | _ => None
  end.

(** Request parameters, JSON bodies and headers: [Dict = None] in the
    signatures, string to string in every call of the suite. *)
Definition strdict := list (string * string).

(** *** [str.upper], [str.rstrip('/')] and [str()] on the values used *)

Definition upper_ascii (c : ascii) : ascii :=
  let n := nat_of_ascii c in
  if ((97 <=? n) && (n <=? 122))%nat then ascii_of_nat (n - 32) else c.

(** The characters outside ASCII whose upper case is ASCII text, by their
    UTF-8 bytes: sharp s, dotless i and long s, and the Latin ligatures
    ff, fi, fl, ffi, ffl, long s-t and st. *)
Definition upper_two (c1 c2 : ascii) : option string :=
  let n1 := nat_of_ascii c1 in
  let n2 := nat_of_ascii c2 in
  if ((n1 =? 195) && (n2 =? 159))%nat then Some "SS"
  else if ((n1 =? 196) && (n2 =? 177))%nat then Some "I"
  else if ((n1 =? 197) && (n2 =? 191))%nat then Some "S"
  else None.

Definition upper_three (c1 c2 c3 : ascii) : option string :=
  let n3 := nat_of_ascii c3 in
  if ((nat_of_ascii c1 =? 239) && (nat_of_ascii c2 =? 172))%nat then
    if (n3 =? 128)%nat then Some "FF"
    else if (n3 =? 129)%nat then Some "FI"
    else if (n3 =? 130)%nat then Some "FL"
    else if (n3 =? 131)%nat then Some "FFI"
    else if (n3 =? 132)%nat then Some "FFL"
    else if ((n3 =? 133) || (n3 =? 134))%nat then Some "ST"
    else None
  else None.

(** [str.upper] on UTF-8 text, as far as ASCII goes: ASCII letters are
    converted, and so are the ten characters above. Any other character
    outside ASCII is left as it is; its upper case is not ASCII either, so
    whether the result equals an ASCII word is as in Python. *)
Fixpoint upper (s : string) : string :=
  match s with
  | EmptyString => EmptyString
  | String c1 s1 =>
      match s1 with
      | EmptyString => String (upper_ascii c1) EmptyString
      | String c2 s2 =>
          match upper_two c1 c2 with
          | Some u => (u ++ upper s2)%string
          | None =>
              match s2 with
              | EmptyString => String (upper_ascii c1) (upper s1)
              | String c3 s3 =>
                  match upper_three c1 c2 c3 with
                  | Some u => (u ++ upper s3)%string
                  | None => String (upper_ascii c1) (upper s1)
                  end
              end
          end
      end
  end.

Fixpoint rstrip_slash (s : string) : string :=
  match s with
  | EmptyString => EmptyString
  | String c s' =>
      match rstrip_slash s' with
      | EmptyString => if Ascii.eqb c "/" then EmptyString else String c EmptyString
      | r => String c r
      end
  end.

Definition squote : ascii := "'"%char.
Definition dquote : ascii := "034"%char.
Definition backslash : ascii := "\"%char.

Definition has_char (c : ascii) (s : string) : bool :=
  existsb (Ascii.eqb c) (list_ascii_of_string s).

Definition hex_digit (n : nat) : ascii :=
  if (n <? 10)%nat then ascii_of_nat (48 + n) else ascii_of_nat (87 + n).

Definition repr_char (q c : ascii) : string :=
  let n := nat_of_ascii c in
  if Ascii.eqb c q || Ascii.eqb c backslash then String backslash (String c EmptyString)
  else if (n =? 9)%nat then "\t"
  else if (n =? 10)%nat then "\n"
  else if (n =? 13)%nat then "\r"
  else if ((n <? 32) || (n =? 127))%nat
       then String backslash (String "x" (String (hex_digit (n / 16)) (String (hex_digit (n mod 16)) EmptyString)))
  else String c EmptyString.

Fixpoint repr_chars (q : ascii) (s : string) : string :=
  match s with
  | EmptyString => EmptyString
  | String c s' => (repr_char q c ++ repr_chars q s')%string
  end.

(** [repr(s)] of a string of ASCII text: single quotes, unless the text
    has a single quote and no double quote. Characters outside ASCII are
    passed through, also the few that Python shows escaped. *)
Definition py_repr_str (s : string) : string :=
  let q := if has_char squote s && negb (has_char dquote s) then dquote else squote in
  String q (repr_chars q s ++ String q EmptyString)%string.

(** [str(d)] of a dict of strings. *)
Definition py_str_dict (d : strdict) : string :=
  ("{" ++ String.concat ", "
            (map (fun kv => py_repr_str (fst kv) ++ ": " ++ py_repr_str (snd kv)) d)
       ++ "}")%string.

(** [str(params or data or path)]. *)
Definition payload_str (params data : option strdict) (path : string) : string :=
  match params with
  | Some (kv :: d) => py_str_dict (kv :: d)
  | _ =>
      match data with
      | Some (kv :: d) => py_str_dict (kv :: d)
      | _ => path
      end
  end.

(** ** The data model *)

Record TestResult := {
  name : string;
  category : string;
  payload : string;
  expected_blocked : bool;
  actual_blocked : bool;
  status_code : Z;
  response_time : float;
  rule_id : pyval;
  message : pyval;
  error : pyval
}.

(** The constructor call of [run_test]: it passes nine keywords, so [error]
    takes the default of the dataclass. *)
Definition mkTestResult (name category payload : string) (expected_blocked actual_blocked : bool)
    (status_code : Z) (response_time : float) (rule_id message : pyval) : TestResult :=
  {| name := name; category := category; payload := payload;
     expected_blocked := expected_blocked; actual_blocked := actual_blocked;
     status_code := status_code; response_time := response_time;
     rule_id := rule_id; message := message; error := PyNone |}.

(** The three calls [test_request] makes on the session. *)
Inductive request :=
| SessionGet (url : string) (params headers : option strdict) (timeout : Z)
| SessionPost (url : string) (json headers : option strdict) (timeout : Z)
| SessionRequest (method url : string) (params json headers : option strdict) (timeout : Z).

(** What comes back from the session: a response, with its status and its
    body as [response.json()] reads it ([None] when that call fails); a
    [requests.exceptions.RequestException] with its text [str(e)]; the
    user interrupting the program while it waits; or the call raising an
    exception of another class, with its text (requests raises ValueError
    for a timeout that is not positive, which is no RequestException). *)
Inductive reply :=
| Response (status : Z) (json : option pyval)
| RequestException (str_e : string)
| Interrupted
| Raised (str_e : string).

(** The [n]-th reading of [time.time()] / [datetime.now()], and the answer
    to a request given how many were sent before it. *)
Record world := {
  time_time : nat -> float;
  datetime_now : nat -> string;
  respond : nat -> request -> reply
}.

(** One constructor per [print] the program makes (a group of consecutive
    prints of fixed text counts as one), carrying the data shown. *)
Inductive color := GREEN | YELLOW | RED.

Inductive output :=
| OutBanner (target started : string)
| OutSection (n : Z) (title : string)
| OutTestResult (pass : bool) (name : string) (blocked : bool) (status_code : Z)
                (response_time : float) (rule_info : option pyval)
| OutSummaryTitle
| OutTotal (total : Z)
| OutPassed (passed : Z) (percent : float)
| OutFailed (failed : Z) (percent : float)
| OutCategory (category : string) (total passed : Z) (c : color) (pass_rate : float)
| OutFailedTitle
| OutFailedTest (name : string) (expected actual : bool) (status_code : Z)
| OutFailedMessage (message : pyval)
| OutSlowTitle
| OutSlowTest (name : string) (response_time : float)
| OutRulesTitle
| OutRule (rule_id : pyval) (count : Z)
| OutCompleted (completed : string)
| OutNotResponding (url : string) (status : Z)
| OutInterrupted
| OutError (e : string)
| OutJson (document : pyval).

Record state := {
  results : list TestResult;
  sent : list request;
  ticks : nat;
  stdout : list output
}.

Definition initial : state := {| results := []; sent := []; ticks := 0; stdout := [] |}.

(** ** Builtins the reporter uses: [sorted], [set], [==] and [<] *)

(** A stable insertion sort: [x] goes in front of the first element that is
    not below it, so equal elements keep the order they came in. On keys
    that [lt] orders totally this is the list [sorted] returns; with
    [reverse=True], [lt] is taken the other way round (that flag keeps
    equal elements in their original order too). *)
Fixpoint insert_by {A} (lt : A -> A -> bool) (x : A) (l : list A) : list A :=
  match l with
  | [] => [x]
  | y :: l' => if lt y x then y :: insert_by lt x l' else x :: y :: l'
  end.

Definition sort_by {A} (lt : A -> A -> bool) (l : list A) : list A :=
  fold_right (insert_by lt) [] l.

(** Numbers compare by value across [bool], [int] and [float]; an [int]
    and a [float] are compared exactly. *)
Inductive pynum := NInt (z : Z) | NFloat (f : float).

Definition as_number (v : pyval) : option pynum :=
  match v with
  | PyBool b => Some (NInt (Z.b2z b))
  | PyInt z => Some (NInt z)
  | PyFloat f => Some (NFloat f)
  | _ => None
  end.

Definition Z_compare_float (z : Z) (f : float) : option comparison :=
  match Prim2SF f with
  | S754_nan => None
  | S754_zero _ => Some (z ?= 0)
  | S754_infinity s => Some (if s then Gt else Lt)
  | S754_finite s m e =>
      let v := if s then Z.neg m else Z.pos m in
      Some (if 0 <=? e then z ?= v * 2 ^ e else z * 2 ^ (- e) ?= v)
  end.

Definition num_compare (a b : pynum) : option comparison :=
  match a, b with
  | NInt x, NInt y => Some (x ?= y)
  | NFloat x, NFloat y => SFcompare (Prim2SF x) (Prim2SF y)
  | NInt x, NFloat y => Z_compare_float x y
  | NFloat x, NInt y => option_map CompOpp (Z_compare_float y x)
  end.

(** [a == b] where one side is a member of a set (so not a list or a
    dict, which are equal to no number or string). *)
Definition py_eq (a b : pyval) : bool :=
  match a, b with
  | PyNone, PyNone => true
  | PyStr x, PyStr y => (x =? y)%string
  | _, _ =>
      match as_number a, as_number b with
      | Some x, Some y => match num_compare x y with Some Eq => true | _ => false end
      | _, _ => false
      end
  end.

(** [a < b], for the elements a set can hold; only the truth value is
    kept, [sortable] below says when the comparison is defined. *)
Definition py_ltb (a b : pyval) : bool :=
  match a, b with
  | PyStr x, PyStr y => String.ltb x y
  | _, _ =>
      match as_number a, as_number b with
      | Some x, Some y => match num_compare x y with Some Lt => true | _ => false end
      | _, _ => false
      end
  end.

Definition hashable (v : pyval) : bool :=
  match v with
  | PyList _ | PyDict _ => false
  | _ => true
  end.

Definition is_number (v : pyval) : bool :=
  match as_number v with Some _ => true | None => false end.

Definition is_str (v : pyval) : bool :=
  match v with PyStr _ => true | _ => false end.

Definition is_nan_value (v : pyval) : bool :=
  match v with PyFloat f => is_nan f | _ => false end.

(** Membership in a set: the same object, or an equal one. The values
    here are read from JSON, where every NaN is one and the same object
    (the constant of the decoder); other values are told apart by [==]. *)
Definition same_member (x y : pyval) : bool :=
  py_eq x y || (is_nan_value x && is_nan_value y).

(** [s.add(x)] and [set(l)]: an element that is already there is dropped;
    [None] stands for the TypeError on an unhashable element. *)
Definition set_add (s : list pyval) (x : pyval) : list pyval :=
  if existsb (same_member x) s then s else s ++ [x].

Definition py_set (l : list pyval) : option (list pyval) :=
  if forallb hashable l then Some (fold_left set_add l []) else None.

(** [sorted(s)] of a set: no comparison is made on fewer than two
    elements; otherwise every element is compared with another one, and a
    number against a string (or anything against [None]) is a TypeError,
    here [None]. Where [sorted] returns, the elements of a set being
    pairwise different, the order of the result is the one [<] gives (a
    NaN, which [<] places nowhere, apart). *)
Definition sortable (l : list pyval) : bool :=
  (Nat.leb (List.length l) 1) || forallb is_number l || forallb is_str l.

Definition py_sorted (l : list pyval) : option (list pyval) :=
  if sortable l then Some (sort_by py_ltb l) else None.

(** ** Exceptions and the monad *)

Inductive exn :=
| KeyboardInterrupt
| SystemExit (code : option Z)
| AttributeError
| TypeError
| ZeroDivisionError
| SessionError (str_e : string).

Inductive outcome (A : Type) :=
| Return (a : A)
| Raise (e : exn).
Arguments Return {A} a.
Arguments Raise {A} e.

Definition M (A : Type) : Type := state -> outcome A * state.

Definition ret {A} (a : A) : M A := fun s => (Return a, s).
Definition raise {A} (e : exn) : M A := fun s => (Raise e, s).
Definition bind {A B} (m : M A) (k : A -> M B) : M B :=
  fun s => match m s with
           | (Return a, s') => k a s'
           | (Raise e, s') => (Raise e, s')
           end.

Declare Scope py_scope.
Delimit Scope py_scope with py.
Notation "x <- m ;; k" := (bind m (fun x => k))
  (at level 100, m at next level, right associativity) : py_scope.
Notation "m ;;; k" := (bind m (fun _ => k))
  (at level 100, right associativity) : py_scope.
Local Open Scope py_scope.

Definition print (o : output) : M unit :=
  fun s => (Return tt, {| results := results s; sent := sent s; ticks := ticks s;
                          stdout := stdout s ++ [o] |}).

Definition append_result (r : TestResult) : M unit :=
  fun s => (Return tt, {| results := results s ++ [r]; sent := sent s; ticks := ticks s;
                          stdout := stdout s |}).

Definition get_results : M (list TestResult) := fun s => (Return (results s), s).

Fixpoint for_each {A} (l : list A) (body : A -> M unit) : M unit :=
  match l with
  | [] => ret tt
  | x :: l' => body x ;;; for_each l' body
  end.

(** [l[-n:]] for a positive [n]. *)
Definition last_n {A} (n : nat) (l : list A) : list A := skipn (List.length l - n) l.

Section Harness.

Variable w : world.

Definition tick {A} (read : world -> nat -> A) : M A :=
  fun s => (Return (read w (ticks s)),
            {| results := results s; sent := sent s; ticks := S (ticks s); stdout := stdout s |}).

Definition session_send (rq : request) : M reply :=
  fun s => (Return (respond w (List.length (sent s)) rq),
            {| results := results s; sent := sent s ++ [rq]; ticks := ticks s; stdout := stdout s |}).

(** ** class WAFTester *)

Record WAFTester := { base_url : string; timeout : Z }.

Definition WAFTester_init (base_url : string) (timeout : Z) : WAFTester :=
  {| base_url := rstrip_slash base_url; timeout := timeout |}.

Definition elapsed_ms (start_time now : float) : float := ((now - start_time) * 1000)%float.

Definition test_request (self : WAFTester) (method path : string)
    (params data headers : option strdict) : M (Z * pyval * float) :=
  let url := (base_url self ++ path)%string in
  start_time <- tick time_time ;;
  answer <- session_send
    (if (upper method =? "GET")%string then SessionGet url params headers (timeout self)
     else if (upper method =? "POST")%string then SessionPost url data headers (timeout self)
     else SessionRequest method url params data headers (timeout self)) ;;
  match answer with
  | Response status json =>
      now <- tick time_time ;;
      let response_time := elapsed_ms start_time now in
      let response_json := match json with Some v => v | None => PyDict [] end in
      ret (status, response_json, response_time)
  | RequestException str_e =>
      now <- tick time_time ;;
      let response_time := elapsed_ms start_time now in
      ret (0, PyDict [("error", PyStr str_e)], response_time)
  | Interrupted => raise KeyboardInterrupt
  | Raised str_e => raise (SessionError str_e)
  end.

Definition get_or_raise (response : pyval) (k : string) : M pyval :=
  match py_get response k with
  | Some v => ret v
  | None => raise AttributeError
  end.

Definition run_test (self : WAFTester) (name category method path : string)
    (params data headers : option strdict) (expected_blocked : bool) : M TestResult :=
  r <- test_request self method path params data headers ;;
  let '(status_code, response, response_time) := r in
  let blocked := status_code =? 403 in
  rule_id <- get_or_raise response "rule_id" ;;
  message <- (m <- get_or_raise response "message" ;;
              e <- get_or_raise response "error" ;;
              ret (py_or m e)) ;;
  let result := mkTestResult name category (payload_str params data path)
                  expected_blocked blocked status_code response_time rule_id message in
  append_result result ;;;
  ret result.

Definition is_pass (r : TestResult) : bool :=
  Bool.eqb (actual_blocked r) (expected_blocked r).

Definition print_test_result (result : TestResult) : M unit :=
  let rule_info := if py_truthy (rule_id result) then Some (rule_id result) else None in
  print (OutTestResult (is_pass result) (name result) (actual_blocked result)
           (status_code result) (response_time result) rule_info).

(** *** print_summary *)

(** The values of the dict [categories]: the keys 'total', 'passed' and
    'failed'. *)
Record stats := { st_total : Z; st_passed : Z; st_failed : Z }.

Definition tally (pass : bool) (st : stats) : stats :=
  {| st_total := st_total st + 1;
     st_passed := if pass then st_passed st + 1 else st_passed st;
     st_failed := if pass then st_failed st else st_failed st + 1 |}.

(** One turn of the loop that fills the dict [categories]. *)
Fixpoint count_in (c : string) (pass : bool) (categories : list (string * stats))
  : list (string * stats) :=
  match categories with
  | [] => [(c, tally pass {| st_total := 0; st_passed := 0; st_failed := 0 |})]
  | (c', st) :: rest =>
      if (c' =? c)%string then (c', tally pass st) :: rest
      else (c', st) :: count_in c pass rest
  end.

Definition category_stats (rs : list TestResult) : list (string * stats) :=
  fold_left (fun categories r => count_in (category r) (is_pass r) categories) rs [].

(** [a / b * 100] on two counts. *)
Definition percent (a b : Z) : float :=
  (PrimFloat.of_uint63 (Uint63.of_Z a) / PrimFloat.of_uint63 (Uint63.of_Z b) * 100)%float.

Definition rate_color (pass_rate : float) : color :=
  if (80 <=? pass_rate)%float then GREEN
  else if (50 <=? pass_rate)%float then YELLOW else RED.

Definition failed_tests (rs : list TestResult) : list TestResult :=
  filter (fun r => negb (Bool.eqb (actual_blocked r) (expected_blocked r))) rs.

Definition slow_tests (rs : list TestResult) : list TestResult :=
  firstn 5 (sort_by (fun a b => (response_time b <? response_time a)%float) rs).

Definition count_rule (rs : list TestResult) (k : pyval) : Z :=
  Z.of_nat (List.length (filter (fun r => py_eq (rule_id r) k) rs)).

Definition print_summary (self : WAFTester) : M Z :=
  print OutSummaryTitle ;;;
  rs <- get_results ;;
  let total := Z.of_nat (List.length rs) in
  let passed := Z.of_nat (List.length (filter is_pass rs)) in
  let failed := total - passed in
  let categories := category_stats rs in
  print (OutTotal total) ;;;
  (if total =? 0 then raise ZeroDivisionError else ret tt) ;;;
  print (OutPassed passed (percent passed total)) ;;;
  print (OutFailed failed (percent failed total)) ;;;
  for_each (sort_by (fun a b => String.ltb (fst a) (fst b)) categories)
    (fun cs =>
       let pass_rate := percent (st_passed (snd cs)) (st_total (snd cs)) in
       print (OutCategory (fst cs) (st_total (snd cs)) (st_passed (snd cs))
                (rate_color pass_rate) pass_rate)) ;;;
  (match failed_tests rs with
   | [] => ret tt
   | failed_tests =>
       print OutFailedTitle ;;;
       for_each failed_tests
         (fun result =>
            print (OutFailedTest (name result) (expected_blocked result)
                     (actual_blocked result) (status_code result)) ;;;
            if py_truthy (message result) then print (OutFailedMessage (message result))
            else ret tt)
   end) ;;;
  (match slow_tests rs with
   | [] => ret tt
   | slow_tests =>
       print OutSlowTitle ;;;
       for_each slow_tests
         (fun result => print (OutSlowTest (name result) (response_time result)))
   end) ;;;
  rule_ids <- match py_set (filter py_truthy (map rule_id rs)) with
              | Some ids => ret ids
              | None => raise TypeError
              end ;;
  (match rule_ids with
   | [] => ret tt
   | _ =>
       print OutRulesTitle ;;;
       ordered <- match py_sorted rule_ids with
                  | Some ids => ret ids
                  | None => raise TypeError
                  end ;;
       for_each ordered (fun rule_id => print (OutRule rule_id (count_rule rs rule_id)))
   end) ;;;
  completed <- tick datetime_now ;;
  print (OutCompleted completed) ;;;
  ret (if failed =? 0 then 0 else 1).

(** *** run_all_tests

    The calls are written out as in the source; the value of
    [print_summary] is dropped and the method returns [None]. *)
Definition run_all_tests (self : WAFTester) : M (option Z) :=
  started <- tick datetime_now ;;
  print (OutBanner (base_url self) started) ;;;
  print (OutSection 1 "SQL Injection Tests") ;;;
  run_test self "Basic SQLi - Union Select" "SQLi" "GET" "/"
    (Some [("id", "1' OR '1'='1")]) None None true ;;;
  run_test self "SQLi - Union Select" "SQLi" "GET" "/"
    (Some [("q", "test UNION SELECT password FROM users")]) None None true ;;;
  run_test self "SQLi - Comment" "SQLi" "GET" "/"
    (Some [("id", "1'--")]) None None true ;;;
  run_test self "SQLi - Boolean" "SQLi" "GET" "/"
    (Some [("user", "admin' AND '1'='1")]) None None true ;;;
  run_test self "SQLi - Time-based" "SQLi" "GET" "/"
    (Some [("id", "1' AND SLEEP(5)--")]) None None true ;;;
  run_test self "SQLi - POST Body" "SQLi" "POST" "/api/login"
    None (Some [("password", "pass' OR '1'='1")]) None true ;;;
  run_test self "SQLi - URL Encoded" "SQLi" "GET" "/"
    (Some [("id", "1%27%20OR%20%271%27%3D%271")]) None None true ;;;
  rs <- get_results ;;
  for_each (last_n 7 rs) print_test_result ;;;
  print (OutSection 2 "XSS (Cross-Site Scripting) Tests") ;;;
  run_test self "XSS - Script Tag" "XSS" "GET" "/"
    (Some [("q", "<script>alert('xss')</script>")]) None None true ;;;
  run_test self "XSS - JavaScript Protocol" "XSS" "GET" "/"
    (Some [("url", "javascript:alert(1)")]) None None true ;;;
  run_test self "XSS - Event Handler" "XSS" "GET" "/"
    (Some [("input", "<img src=x onerror=alert(1)>")]) None None true ;;;
  run_test self "XSS - Iframe" "XSS" "GET" "/"
    (Some [("content", "<iframe src=evil.com></iframe>")]) None None true ;;;
  run_test self "XSS - Document Cookie" "XSS" "GET" "/"
    (Some [("q", "test<script>document.cookie</script>")]) None None true ;;;
  run_test self "XSS - POST Body" "XSS" "POST" "/api/comment"
    None (Some [("comment", "<script>alert('xss')</script>")]) None true ;;;
  rs <- get_results ;;
  for_each (last_n 6 rs) print_test_result ;;;
  print (OutSection 3 "Path Traversal Tests") ;;;
  run_test self "LFI - Basic" "Path Traversal" "GET" "/"
    (Some [("file", "../../../etc/passwd")]) None None true ;;;
  run_test self "LFI - Encoded" "Path Traversal" "GET" "/"
    (Some [("file", "..%2F..%2F..%2Fetc%2Fpasswd")]) None None true ;;;
  run_test self "LFI - Null Byte" "Path Traversal" "GET" "/"
    (Some [("file", "../../../etc/passwd%00")]) None None true ;;;
  rs <- get_results ;;
  for_each (last_n 3 rs) print_test_result ;;;
  print (OutSection 4 "Command Injection Tests") ;;;
  run_test self "RCE - Basic" "Command Injection" "GET" "/"
    (Some [("cmd", "; ls -la")]) None None true ;;;
  run_test self "RCE - Pipe" "Command Injection" "GET" "/"
    (Some [("input", "test | cat /etc/passwd")]) None None true ;;;
  run_test self "RCE - Backtick" "Command Injection" "GET" "/"
    (Some [("q", "test `whoami`")]) None None true ;;;
  rs <- get_results ;;
  for_each (last_n 3 rs) print_test_result ;;;
  print (OutSection 5 "Normal Requests (Should Pass)") ;;;
  run_test self "Normal GET" "Normal" "GET" "/"
    (Some [("page", "home")]) None None false ;;;
  run_test self "Normal POST" "Normal" "POST" "/api/users"
    None (Some [("name", "John"); ("email", "john@example.com")]) None false ;;;
  run_test self "Normal Query" "Normal" "GET" "/search"
    (Some [("q", "hello world")]) None None false ;;;
  rs <- get_results ;;
  for_each (last_n 3 rs) print_test_result ;;;
  print_summary self ;;;
  ret None.

End Harness.

(** ** main *)

Record Args := { arg_url : string; arg_timeout : Z; arg_json : bool }.

(** The dict handed to [json.dumps] in the JSON mode. *)
Definition json_result (r : TestResult) : pyval :=
  PyDict [("name", PyStr (name r));
          ("category", PyStr (category r));
          ("payload", PyStr (payload r));
          ("expected_blocked", PyBool (expected_blocked r));
          ("actual_blocked", PyBool (actual_blocked r));
          ("status_code", PyInt (status_code r));
          ("response_time_ms", PyFloat (response_time r));
          ("rule_id", rule_id r);
          ("message", message r)].

Definition json_output (timestamp url : string) (rs : list TestResult) : pyval :=
  PyDict [("timestamp", PyStr timestamp);
          ("url", PyStr url);
          ("total", PyInt (Z.of_nat (List.length rs)));
          ("passed", PyInt (Z.of_nat (List.length (filter is_pass rs))));
          ("failed", PyInt (Z.of_nat (List.length (failed_tests rs))));
          ("results", PyList (map json_result rs))].

(** The body of the [try] block. [sys.exit] raises [SystemExit]. *)
Definition main_try (w : world) (args : Args) (tester : WAFTester) : M unit :=
  h <- test_request w tester "GET" "/health" None None None ;;
  let '(status, _, _) := h in
  (if negb (status =? 200)
   then print (OutNotResponding (arg_url args) status) ;;; raise (SystemExit (Some 1))
   else ret tt) ;;;
  if arg_json args then
    run_all_tests w tester ;;;
    timestamp <- tick w datetime_now ;;
    rs <- get_results ;;
    print (OutJson (json_output timestamp (arg_url args) rs))
  else
    exit_code <- run_all_tests w tester ;;
    raise (SystemExit exit_code).

(** The exception names as [str(e)] shows them are not modelled: the
    handler prints an error line whatever the text. An exception of the
    session comes with its text. *)
Definition exn_text (e : exn) : string :=
  match e with
  | AttributeError => "AttributeError"
  | TypeError => "TypeError"
  | ZeroDivisionError => "ZeroDivisionError"
  | KeyboardInterrupt => "KeyboardInterrupt"
  | SystemExit _ => "SystemExit"
  | SessionError str_e => str_e
  end.

(** The whole program: the exit code of the process and the final state.
    [KeyboardInterrupt] and [Exception] are handled; a [SystemExit] goes
    through both handlers and ends the process with its code, [None]
    counting as 0, as does falling off the end of [main]. *)
Definition main (w : world) (args : Args) : Z * state :=
  let tester := WAFTester_init (arg_url args) (arg_timeout args) in
  match main_try w args tester initial with
  | (Return _, s) => (0, s)
  | (Raise (SystemExit None), s) => (0, s)
  | (Raise (SystemExit (Some code)), s) => (code, s)
  | (Raise KeyboardInterrupt, s) =>
      match (print OutInterrupted ;;; raise (A:=unit) (SystemExit (Some 130))) s with
      | (_, s') => (130, s')
      end
  | (Raise e, s) =>
      match (print (OutError (exn_text e)) ;;; raise (A:=unit) (SystemExit (Some 1))) s with
      | (_, s') => (1, s')
      end
  end.

(** ** Definitions used to state the properties *)

(** The request [test_request] hands to the session. *)
Definition request_of (self : WAFTester) (method path : string)
    (params data headers : option strdict) : request :=
  let url := (base_url self ++ path)%string in
  if (upper method =? "GET")%string then SessionGet url params headers (timeout self)
  else if (upper method =? "POST")%string then SessionPost url data headers (timeout self)
  else SessionRequest method url params data headers (timeout self).

(** The state after a request went out and two readings of the clock. *)
Definition after_request (s : state) (rq : request) : state :=
  {| results := results s; sent := sent s ++ [rq]; ticks := S (S (ticks s)); stdout := stdout s |}.

Definition with_result (s : state) (r : TestResult) : state :=
  {| results := results s ++ [r]; sent := sent s; ticks := ticks s; stdout := stdout s |}.

Definition with_output (s : state) (out : list output) : state :=
  {| results := results s; sent := sent s; ticks := ticks s; stdout := stdout s ++ out |}.

(** What [test_request] returns for a reply; none on an interrupt. *)
Definition returned (answer : reply) (response_time : float) : option (Z * pyval * float) :=
  match answer with
  | Response status (Some v) => Some (status, v, response_time)
  | Response status None => Some (status, PyDict [], response_time)
  | RequestException str_e => Some (0, PyDict [("error", PyStr str_e)], response_time)
  | Interrupted => None
  | Raised _ => None
  end.

(** What [test_request] raises for a reply it does not return from. *)
Definition raised (answer : reply) : exn :=
  match answer with
  | Raised str_e => SessionError str_e
  | _ => KeyboardInterrupt
  end.

(** [d.get(k)] on the association list of a dict. *)
Definition dict_get (d : list (string * pyval)) (k : string) : pyval :=
  match assoc k d with Some v => v | None => PyNone end.

(** The line [print_test_result] prints for a result. *)
Definition test_line (r : TestResult) : output :=
  OutTestResult (is_pass r) (name r) (actual_blocked r) (status_code r) (response_time r)
    (if py_truthy (rule_id r) then Some (rule_id r) else None).

Definition is_test_line (o : output) : bool :=
  match o with OutTestResult _ _ _ _ _ _ => true | _ => false end.

Definition is_json (o : output) : bool :=
  match o with OutJson _ => true | _ => false end.



(** The slowest-tests lines of a report, in the order printed. *)
Definition slow_of_line (o : output) : list (string * float) :=
  match o with
  | OutSlowTest n t => [(n, t)]
  | _ => []
  end.

Definition slow_lines (out : list output) : list (string * float) := flat_map slow_of_line out.

(** *** What [print_summary] prints, block by block *)

Definition category_line (cs : string * stats) : output :=
  let pass_rate := percent (st_passed (snd cs)) (st_total (snd cs)) in
  OutCategory (fst cs) (st_total (snd cs)) (st_passed (snd cs)) (rate_color pass_rate) pass_rate.

Definition failed_lines (result : TestResult) : list output :=
  OutFailedTest (name result) (expected_blocked result) (actual_blocked result)
    (status_code result)
  :: (if py_truthy (message result) then [OutFailedMessage (message result)] else []).

Definition failed_block (rs : list TestResult) : list output :=
  match failed_tests rs with
  | [] => []
  | r :: l => OutFailedTitle :: flat_map failed_lines (r :: l)
  end.

Definition slow_block (rs : list TestResult) : list output :=
  match slow_tests rs with
  | [] => []
  | r :: l => OutSlowTitle :: map (fun r => OutSlowTest (name r) (response_time r)) (r :: l)
  end.

Definition summary_head (rs : list TestResult) : list output :=
  let total := Z.of_nat (List.length rs) in
  let passed := Z.of_nat (List.length (filter is_pass rs)) in
  let failed := total - passed in
  [OutSummaryTitle; OutTotal total; OutPassed passed (percent passed total);
   OutFailed failed (percent failed total)]
  ++ map category_line (sort_by (fun a b => String.ltb (fst a) (fst b)) (category_stats rs))
  ++ failed_block rs ++ slow_block rs.

Definition rule_line (rs : list TestResult) (k : pyval) : output := OutRule k (count_rule rs k).

Definition summary_code (rs : list TestResult) : Z :=
  if Z.of_nat (List.length rs) - Z.of_nat (List.length (filter is_pass rs)) =? 0 then 0 else 1.

(** The state [print_summary] leaves when it returns, having printed [out]
    and then the completion line. *)
Definition summarised (w : world) (s : state) (out : list output) : state :=
  {| results := results s; sent := sent s; ticks := S (ticks s);
     stdout := stdout s ++ out ++ [OutCompleted (datetime_now w (ticks s))] |}.

(** A line of the summary: neither a per-test line nor the JSON document. *)
Definition summary_line (o : output) : Prop := is_test_line o = false /\ is_json o = false.

(** *** The catalogue as the specification tabulates it

    One entry per row of the table of literal test cases: category, name,
    method, path, the parameter (GET) or body (POST), and whether the
    request is expected to be blocked. *)
Record TestCase := {
  tc_category : string;
  tc_name : string;
  tc_method : string;
  tc_path : string;
  tc_params : option strdict;
  tc_body : option strdict;
  tc_expected_blocked : bool
}.

Definition get_case (cat nm path k v : string) (blocked : bool) : TestCase :=
  {| tc_category := cat; tc_name := nm; tc_method := "GET"; tc_path := path;
     tc_params := Some [(k, v)]; tc_body := None; tc_expected_blocked := blocked |}.

Definition post_case (cat nm path : string) (body : strdict) (blocked : bool) : TestCase :=
  {| tc_category := cat; tc_name := nm; tc_method := "POST"; tc_path := path;
     tc_params := None; tc_body := Some body; tc_expected_blocked := blocked |}.

Definition spec_catalogue : list TestCase :=
  [ get_case "SQLi" "Basic SQLi - Union Select" "/" "id" "1' OR '1'='1" true;
    get_case "SQLi" "SQLi - Union Select" "/" "q" "test UNION SELECT password FROM users" true;
    get_case "SQLi" "SQLi - Comment" "/" "id" "1'--" true;
    get_case "SQLi" "SQLi - Boolean" "/" "user" "admin' AND '1'='1" true;
    get_case "SQLi" "SQLi - Time-based" "/" "id" "1' AND SLEEP(5)--" true;
    post_case "SQLi" "SQLi - POST Body" "/api/login" [("password", "pass' OR '1'='1")] true;
    get_case "SQLi" "SQLi - URL Encoded" "/" "id" "1%27%20OR%20%271%27%3D%271" true;
    get_case "XSS" "XSS - Script Tag" "/" "q" "<script>alert('xss')</script>" true;
    get_case "XSS" "XSS - JavaScript Protocol" "/" "url" "javascript:alert(1)" true;
    get_case "XSS" "XSS - Event Handler" "/" "input" "<img src=x onerror=alert(1)>" true;
    get_case "XSS" "XSS - Iframe" "/" "content" "<iframe src=evil.com></iframe>" true;
    get_case "XSS" "XSS - Document Cookie" "/" "q" "test<script>document.cookie</script>" true;
    post_case "XSS" "XSS - POST Body" "/api/comment" [("comment", "<script>alert('xss')</script>")] true;
    get_case "Path Traversal" "LFI - Basic" "/" "file" "../../../etc/passwd" true;
    get_case "Path Traversal" "LFI - Encoded" "/" "file" "..%2F..%2F..%2Fetc%2Fpasswd" true;
    get_case "Path Traversal" "LFI - Null Byte" "/" "file" "../../../etc/passwd%00" true;
    get_case "Command Injection" "RCE - Basic" "/" "cmd" "; ls -la" true;
    get_case "Command Injection" "RCE - Pipe" "/" "input" "test | cat /etc/passwd" true;
    get_case "Command Injection" "RCE - Backtick" "/" "q" "test `whoami`" true;
    get_case "Normal" "Normal GET" "/" "page" "home" false;
    post_case "Normal" "Normal POST" "/api/users" [("name", "John"); ("email", "john@example.com")] false;
    get_case "Normal" "Normal Query" "/search" "q" "hello world" false ].

(** The request a catalogue entry stands for, and the result record that
    carries its outcome. *)
Definition case_request (self : WAFTester) (tc : TestCase) : request :=
  request_of self (tc_method tc) (tc_path tc) (tc_params tc) (tc_body tc) None.

Definition result_of_case (tc : TestCase) (r : TestResult) : Prop :=
  name r = tc_name tc /\ category r = tc_category tc /\
  expected_blocked r = tc_expected_blocked tc /\
  payload r = payload_str (tc_params tc) (tc_body tc) (tc_path tc).

(** What a record made for a catalogue entry satisfies, whatever the
    target answered. *)
Definition recorded (tc : TestCase) (r : TestResult) : Prop :=
  result_of_case tc r /\ actual_blocked r = (status_code r =? 403) /\ error r = PyNone.

(** What [run_all_tests] prints before the summary, given the records of
    the run. *)
Definition run_output (target started : string) (rs : list TestResult) : list output :=
  [OutBanner target started; OutSection 1 "SQL Injection Tests"]
  ++ map test_line (firstn 7 rs)
  ++ [OutSection 2 "XSS (Cross-Site Scripting) Tests"]
  ++ map test_line (firstn 6 (skipn 7 rs))
  ++ [OutSection 3 "Path Traversal Tests"]
  ++ map test_line (firstn 3 (skipn 13 rs))
  ++ [OutSection 4 "Command Injection Tests"]
  ++ map test_line (firstn 3 (skipn 16 rs))
  ++ [OutSection 5 "Normal Requests (Should Pass)"]
  ++ map test_line (skipn 19 rs).

(** The state in which [run_all_tests] calls [print_summary]: the records
    [rs] of the run appended, the catalogue sent, the clock read twice per
    request after the date was read once. *)
Definition before_summary (w : world) (self : WAFTester) (s : state) (rs : list TestResult)
  : state :=
  {| results := results s ++ rs;
     sent := sent s ++ map (case_request self) spec_catalogue;
     ticks := 45 + ticks s;
     stdout := stdout s ++ run_output (base_url self) (datetime_now w (ticks s)) rs |}.

(** The health check of [main]. *)
Definition health_request (args : Args) : request :=
  SessionGet (rstrip_slash (arg_url args) ++ "/health")%string None None (arg_timeout args).

(** What holds of every record made in the world [w], whatever the target
    answered: the classification, the empty [error] and a response time
    that is the difference of two consecutive readings of the clock. *)
Definition classified (w : world) (r : TestResult) : Prop :=
  actual_blocked r = (status_code r =? 403) /\ error r = PyNone /\
  exists n, response_time r = elapsed_ms (time_time w n) (time_time w (S n)).

(** [s'] continues [s]: requests and records were only added at the end,
    and the records added are classified. *)
Definition extends (w : world) (s s' : state) : Prop :=
  (exists rqs, sent s' = sent s ++ rqs) /\
  (exists rs, results s' = results s ++ rs /\ Forall (classified w) rs).

Definition monotone (w : world) {A} (m : M A) : Prop :=
  forall s o s', m s = (o, s') -> extends w s s'.

(** A clock that only shows finite numbers. *)
Definition finite_clock (w : world) : Prop :=
  forall n, is_finite (time_time w n) = true.

Definition finite_sf (x : spec_float) : Prop :=
  match x with
  | S754_zero _ | S754_finite _ _ _ => True
  | _ => False
  end.

(** The state in which [run_all_tests] returns: [before_summary] followed
    by the lines [out] of the summary, the date having been read once more. *)
Definition after_run (w : world) (self : WAFTester) (s : state) (rs : list TestResult)
    (out : list output) : state :=
  {| results := results s ++ rs;
     sent := sent s ++ map (case_request self) spec_catalogue;
     ticks := 46 + ticks s;
     stdout := stdout s ++ run_output (base_url self) (datetime_now w (ticks s)) rs ++ out |}.


(** What the [try] block does after a health check that answered 200. *)
Definition suite (w : world) (args : Args) (tester : WAFTester) : M unit :=
  if arg_json args then
    run_all_tests w tester ;;;
    timestamp <- tick w datetime_now ;;
    rs <- get_results ;;
    print (OutJson (json_output timestamp (arg_url args) rs))
  else
    exit_code <- run_all_tests w tester ;;
    raise (SystemExit exit_code).

(** *** Rule numbers

    The annotation of the dataclass has [rule_id] an int or None. For
    records that keep to it, the operations of the report on Python values
    come down to these on integers. *)
Definition typed_rule_id (r : TestResult) : Prop :=
  rule_id r = PyNone \/ exists z, rule_id r = PyInt z.

Definition has_rule (z : Z) (r : TestResult) : bool :=
  match rule_id r with
  | PyInt z' => z' =? z
  | _ => false
  end.

(** The rule numbers other than 0, record by record. *)
Definition int_ids (rs : list TestResult) : list Z :=
  flat_map (fun r => match rule_id r with
                     | PyInt z => if z =? 0 then [] else [z]
                     | _ => []
                     end) rs.

Definition Z_set_add (s : list Z) (x : Z) : list Z :=
  if existsb (Z.eqb x) s then s else s ++ [x].

(** The rule numbers the report lists. *)
Definition listed_rules (rs : list TestResult) : list Z :=
  sort_by Z.ltb (fold_left Z_set_add (int_ids rs) []).

(** The rule lines of the summary of records that keep to the annotation. *)
Definition counted_rule (rs : list TestResult) (z : Z) : pyval * Z :=
  (PyInt z, Z.of_nat (List.length (filter (has_rule z) rs))).

Definition rules_block (rs : list TestResult) : list output :=
  match listed_rules rs with
  | [] => []
  | z :: zs => OutRulesTitle :: map (fun z => OutRule (fst (counted_rule rs z))
                                               (snd (counted_rule rs z))) (z :: zs)
  end.

(** *** What a request carries *)

Definition request_method (rq : request) : string :=
  match rq with
  | SessionGet _ _ _ _ => "GET"
  | SessionPost _ _ _ _ => "POST"
  | SessionRequest method _ _ _ _ _ => method
  end.

Definition request_url (rq : request) : string :=
  match rq with
  | SessionGet url _ _ _ | SessionPost url _ _ _ | SessionRequest _ url _ _ _ _ => url
  end.

Definition request_params (rq : request) : option strdict :=
  match rq with
  | SessionGet _ params _ _ | SessionRequest _ _ params _ _ _ => params
  | SessionPost _ _ _ _ => None
  end.

Definition request_json (rq : request) : option strdict :=
  match rq with
  | SessionPost _ json _ _ | SessionRequest _ _ _ json _ _ => json
  | SessionGet _ _ _ _ => None
  end.

Definition request_headers (rq : request) : option strdict :=
  match rq with
  | SessionGet _ _ headers _ | SessionPost _ _ headers _
  | SessionRequest _ _ _ _ headers _ => headers
  end.

Definition request_timeout (rq : request) : Z :=
  match rq with
  | SessionGet _ _ _ timeout | SessionPost _ _ _ timeout
  | SessionRequest _ _ _ _ _ timeout => timeout
  end.

(** The exceptions a call of [run_test] can end with: the interrupt, a
    body without [get], or the exception the session raised. *)
Definition request_error (e : exn) : Prop :=
  e = KeyboardInterrupt \/ e = AttributeError \/ exists str_e, e = SessionError str_e.





(** *** Targets the suite runs through

    An answer is digestible when it is a network failure, or a response
    whose body is not JSON or is a mapping with an int or no 'rule_id'. *)
Definition digestible (a : reply) : Prop :=
  match a with
  | Response _ (Some (PyDict d)) =>
      dict_get d "rule_id" = PyNone \/ exists z, dict_get d "rule_id" = PyInt z
  | Response _ (Some _) => False
  | Response _ None => True
  | RequestException _ => True
  | Interrupted => False
  | Raised _ => False
  end.

(** The target is polite when it answers so to every request that comes
    with a positive timeout. *)
Definition polite (w : world) : Prop :=
  forall n rq, 0 < request_timeout rq -> digestible (respond w n rq).

(** *** Sample worlds *)

Definition clock (n : nat) : float :=
  let t := PrimFloat.of_uint63 (Uint63.of_Z (Z.of_nat n)) in (t * t / 64)%float.

(** The sample targets are reached through requests, which rejects a
    timeout that is not positive with a ValueError before it connects. *)
Definition timeout_error (timeout : Z) : string :=
  ("Attempted to set connect timeout to " ++ NilZero.string_of_int (Z.to_int timeout)
   ++ ", but the timeout cannot be set to a value less than or equal to 0.")%string.

Definition validating (respond : nat -> request -> reply) (n : nat) (rq : request) : reply :=
  if request_timeout rq <=? 0 then Raised (timeout_error (request_timeout rq))
  else respond n rq.

Definition world_of (respond : nat -> request -> reply) : world :=
  {| time_time := clock; datetime_now := fun _ => "2025-01-01T00:00:00";
     respond := validating respond |}.

Definition blocked_body : pyval :=
  PyDict [("rule_id", PyInt 100); ("message", PyStr "SQLi blocked")].

(** A target that blocks the nineteen attacks and lets the rest through. *)
Definition strict_waf : world :=
  world_of (fun n _ => if (n =? 0)%nat then Response 200 None
                       else if (n <=? 19)%nat then Response 403 (Some blocked_body)
                       else Response 200 (Some (PyDict []))).

(** A target that lets everything through. *)
Definition open_target : world := world_of (fun _ _ => Response 200 None).

(** A target whose health check answers 503. *)
Definition unhealthy_target : world := world_of (fun _ _ => Response 503 None).

(** A target that cannot be reached. *)
Definition unreachable_target : world :=
  world_of (fun _ _ => RequestException "Connection refused").


(** A target that blocks with an empty message next to an error text. *)
Definition empty_message_body : pyval :=
  PyDict [("message", PyStr ""); ("error", PyStr "denied")].

Definition empty_message_waf : world :=
  world_of (fun _ _ => Response 403 (Some empty_message_body)).

(** A target that blocks everything, naming the rule. *)
Definition blocking_waf : world := world_of (fun _ _ => Response 403 (Some blocked_body)).

Definition local_tester : WAFTester := WAFTester_init "http://localhost:3000" 5.

Definition console_args : Args :=
  {| arg_url := "http://localhost:3000"; arg_timeout := 5; arg_json := false |}.


(** The records of a complete run against [strict_waf]. *)
Definition sample_results : list TestResult := results (snd (main strict_waf console_args)).

(** *** What is printed along the way *)

(** [s'] has the output of [s] followed by lines that [ok] accepts. *)
Definition adds_lines (ok : output -> bool) (s s' : state) : Prop :=
  exists out, stdout s' = stdout s ++ out /\ forallb ok out = true.

Definition prints_only (ok : output -> bool) {A} (m : M A) : Prop :=
  forall s o s', m s = (o, s') -> adds_lines ok s s'.

Definition not_json (o : output) : bool := negb (is_json o).

Definition is_abort_line (o : output) : bool :=
  match o with
  | OutNotResponding _ _ | OutError _ => true
  | _ => false
  end.

(** *** Counting by category *)

Definition in_category (c : string) (r : TestResult) : bool := (category r =? c)%string.

(** The counts the loop of [print_summary] should arrive at for [c]. *)
Definition stats_of (c : string) (rs : list TestResult) : stats :=
  let mine := filter (in_category c) rs in
  {| st_total := Z.of_nat (List.length mine);
     st_passed := Z.of_nat (List.length (filter is_pass mine));
     st_failed := Z.of_nat (List.length (filter (fun r => negb (is_pass r)) mine)) |}.

(** The category lines of a report, in the order printed. *)
Definition category_of_line (o : output) : list (string * Z * Z) :=
  match o with
  | OutCategory c t p _ _ => [(c, t, p)]
  | _ => []
  end.


(** *** Further definitions for the reports and the requests *)




(** A record of a blocked attack, with the rule id the response named. *)
Definition blocked_record (rule : pyval) : TestResult :=
  {| name := "Basic SQL Injection"; category := "SQLi"; payload := "{}";
     expected_blocked := true; actual_blocked := true; status_code := 403;
     response_time := 2%float; rule_id := rule; message := PyStr "blocked";
     error := PyNone |}.

(** *** Trailing slashes *)

Fixpoint slashes (n : nat) : string :=
  match n with
  | O => EmptyString
  | S n' => String "/" (slashes n')
  end.

Fixpoint ends_with_slash (s : string) : bool :=
  match s with
  | EmptyString => false
  | String c EmptyString => Ascii.eqb c "/"
  | String _ s' => ends_with_slash s'
  end.

Definition is_dict (v : pyval) : bool :=
  match v with PyDict _ => true | _ => false end.

(** A blocking target that answers the health check, seen with a coarse
    clock that shows one of two readings. *)
Definition coarse_clock_waf : world :=
  {| time_time := fun n => if Nat.even n then 1735689600%float else 1735689600.25%float;
     datetime_now := fun _ => "2025-01-01T00:00:00";
     respond := validating (fun n _ => if (n =? 0)%nat then Response 200 None
                                       else Response 403 (Some blocked_body)) |}.

(** A command line with --timeout 0. *)
Definition zero_timeout_args : Args :=
  {| arg_url := "http://localhost:3000"; arg_timeout := 0; arg_json := false |}.

(** A target that answers every request with a JSON array. *)
Definition array_target : world := world_of (fun _ _ => Response 200 (Some (PyList []))).

(** *** The lines a call prints *)

(** What the computation [m] adds to the output when run from [s]. *)
Definition printed_by {A} (m : M A) (s : state) : list output :=
  skipn (List.length (stdout s)) (stdout (snd (m s))).

(** The lines of the summary that come after its first blocks. *)
Definition after_head (o : output) : bool :=
  match o with
  | OutRulesTitle | OutRule _ _ | OutCompleted _ => true
  | _ => false
  end.

(** * Properties *)

(** ** The client adapter and the runner, call by call *)

Section Calls.

Variable w : world.
Variable self : WAFTester.

Lemma test_request_eq (method path : string) (params data headers : option strdict) (s : state) :
  let rq := request_of self method path params data headers in
  test_request w self method path params data headers s =
  match returned (respond w (List.length (sent s)) rq)
          (elapsed_ms (time_time w (ticks s)) (time_time w (S (ticks s)))) with
  | Some v => (Return v, after_request s rq)
  | None => (Raise (raised (respond w (List.length (sent s)) rq)),
             {| results := results s; sent := sent s ++ [rq]; ticks := S (ticks s);
                stdout := stdout s |})
  end.
Proof.
  unfold test_request, request_of, bind, tick, session_send, after_request; cbn.
  destruct (respond w _ _) as [status [v|]|str_e| |str_e]; reflexivity.
Qed.

(** [run_test], once the client has returned: a response that is a dict
    gives a record, anything else has no [get]. *)
Lemma run_test_eq (nm cat method path : string) (params data headers : option strdict)
    (expected : bool) (s s1 : state) (status : Z) (response : pyval) (rt : float) :
  test_request w self method path params data headers s = (Return (status, response, rt), s1) ->
  run_test w self nm cat method path params data headers expected s =
  match response with
  | PyDict d =>
      let r := mkTestResult nm cat (payload_str params data path) expected (status =? 403)
                 status rt (dict_get d "rule_id")
                 (py_or (dict_get d "message") (dict_get d "error")) in
      (Return r, with_result s1 r)
  | _ => (Raise AttributeError, s1)
  end.
Proof.
  intros H. unfold run_test, bind. rewrite H.
  destruct response; reflexivity.
Qed.

Lemma run_test_raises (nm cat method path : string) (params data headers : option strdict)
    (expected : bool) (s s1 : state) (e : exn) :
  test_request w self method path params data headers s = (Raise e, s1) ->
  run_test w self nm cat method path params data headers expected s = (Raise e, s1).
Proof.
  intros H. unfold run_test, bind. rewrite H. reflexivity.
Qed.

(** Every way [run_test] can return. *)
Lemma run_test_inv (nm cat method path : string) (params data headers : option strdict)
    (expected : bool) (s s' : state) (r : TestResult) :
  run_test w self nm cat method path params data headers expected s = (Return r, s') ->
  exists status d rt,
    let rq := request_of self method path params data headers in
    test_request w self method path params data headers s
      = (Return (status, PyDict d, rt), after_request s rq) /\
    r = mkTestResult nm cat (payload_str params data path) expected (status =? 403)
          status rt (dict_get d "rule_id")
          (py_or (dict_get d "message") (dict_get d "error")) /\
    s' = with_result (after_request s rq) r.
Proof.
  intros H.
  destruct (test_request w self method path params data headers s) as [[[[status response] rt]|e] s1] eqn:E.
  - rewrite (run_test_eq _ _ _ _ _ _ _ _ _ _ _ _ _ E) in H.
    pose proof (test_request_eq method path params data headers s) as T; cbv zeta in T.
    rewrite E in T.
    destruct (returned _ _) as [v|]; [|discriminate].
    injection T as <- ->.
    destruct response; try discriminate.
    injection H as <- <-.
    exists status, d, rt. cbv zeta. auto.
  - rewrite (run_test_raises _ _ _ _ _ _ _ _ _ _ _ E) in H. discriminate.
Qed.

End Calls.

(** ** What a call of [run_test] records *)

(** C1: in the record [run_test] makes, [status_code] is the status the
    client returned and [actual_blocked] is true exactly when that status is
    403; any other status, the 0 of a network failure included, gives
    [actual_blocked = false]. *)
Theorem run_test_blocked_iff_403 (w : world) (self : WAFTester)
    (nm cat method path : string) (params data headers : option strdict) (expected : bool)
    (s s1 s' : state) (status : Z) (response : pyval) (rt : float) (r : TestResult) :
  test_request w self method path params data headers s = (Return (status, response, rt), s1) ->
  run_test w self nm cat method path params data headers expected s = (Return r, s') ->
  status_code r = status /\
  (actual_blocked r = true <-> status = 403) /\
  (status <> 403 -> actual_blocked r = false) /\
  (status = 0 -> actual_blocked r = false).
Proof.
  intros T H. rewrite (run_test_eq _ _ _ _ _ _ _ _ _ _ _ _ _ _ _ T) in H.
  destruct response; try discriminate.
  injection H as <- _. cbn.
  split; [reflexivity|]. split; [apply Z.eqb_eq|].
  split; [apply Z.eqb_neq|intros ->; reflexivity].
Qed.

Lemma run_test_blocked_iff_403_witness :
  exists r s',
    run_test blocking_waf local_tester "Basic SQLi - Union Select" "SQLi" "GET" "/"
      (Some [("id", "1' OR '1'='1")]) None None true initial = (Return r, s') /\
    status_code r = 403 /\
    (actual_blocked r = true <-> 403 = 403) /\
    (403 <> 403 -> actual_blocked r = false) /\
    (403 = 0 -> actual_blocked r = false).
Proof.
  eexists. eexists. split; [vm_compute; reflexivity|].
  eapply (run_test_blocked_iff_403 blocking_waf local_tester
            "Basic SQLi - Union Select" "SQLi" "GET" "/"
            (Some [("id", "1' OR '1'='1")]) None None true initial);
    vm_compute; reflexivity.
Defined.



(** C7, as the code has it: on a response that is a mapping, [rule_id] is
    the value under 'rule_id' (None without the key); [message] is the value
    under 'message' when that value is truthy, and otherwise (no such key,
    or a value that is None, empty, zero or false) the value under 'error'
    (None without that key). *)
Theorem run_test_rule_id_and_message (w : world) (self : WAFTester)
    (nm cat method path : string) (params data headers : option strdict) (expected : bool)
    (s s1 : state) (status : Z) (d : list (string * pyval)) (rt : float) :
  test_request w self method path params data headers s = (Return (status, PyDict d, rt), s1) ->
  exists r s',
    run_test w self nm cat method path params data headers expected s = (Return r, s') /\
    (forall v, assoc "rule_id" d = Some v -> rule_id r = v) /\
    (assoc "rule_id" d = None -> rule_id r = PyNone) /\
    (forall v, assoc "message" d = Some v -> py_truthy v = true -> message r = v) /\
    (forall v, assoc "message" d = Some v -> py_truthy v = false ->
       message r = dict_get d "error") /\
    (assoc "message" d = None -> message r = dict_get d "error").
Proof.
  intros T. rewrite (run_test_eq _ _ _ _ _ _ _ _ _ _ _ _ _ _ _ T).
  eexists. eexists. split; [reflexivity|]. cbn. unfold dict_get, py_or.
  repeat split.
  - intros v ->. reflexivity.
  - intros ->. reflexivity.
  - intros v -> ->. reflexivity.
  - intros v -> ->. reflexivity.
  - intros ->. reflexivity.
Qed.

Lemma run_test_rule_id_and_message_witness :
  exists r s',
    run_test blocking_waf local_tester "Basic SQLi - Union Select" "SQLi" "GET" "/"
      (Some [("id", "1' OR '1'='1")]) None None true initial = (Return r, s') /\
    rule_id r = PyInt 100 /\ message r = PyStr "SQLi blocked".
Proof.
  destruct (run_test_rule_id_and_message blocking_waf local_tester
              "Basic SQLi - Union Select" "SQLi" "GET" "/"
              (Some [("id", "1' OR '1'='1")]) None None true initial
              (after_request initial
                 (request_of local_tester "GET" "/" (Some [("id", "1' OR '1'='1")]) None None))
              403 [("rule_id", PyInt 100); ("message", PyStr "SQLi blocked")]
              (elapsed_ms (clock 0) (clock 1)) eq_refl)
    as (r & s' & E & Hrule & _ & Hmsg & _).
  exists r, s'. split; [exact E|]. split.
  - apply Hrule. reflexivity.
  - apply Hmsg; reflexivity.
Defined.

(** C7 as stated fails: the key 'message' is present with the value [""],
    and the record holds the text found under 'error' instead. *)
Lemma message_present_but_error_recorded :
  exists r s',
    run_test empty_message_waf local_tester "Basic SQLi - Union Select" "SQLi" "GET" "/"
      (Some [("id", "1' OR '1'='1")]) None None true initial = (Return r, s') /\
    py_get empty_message_body "message" = Some (PyStr "") /\
    message r = PyStr "denied" /\
    message r <> PyStr "".
Proof.
  eexists. eexists. split; [vm_compute; reflexivity|].
  cbn. repeat split. discriminate.
Qed.

(** C10: a record made by [run_test] has [error = None]; when the request
    failed at the network level, the text of the failure is in [message]. *)
Theorem run_test_error_is_none (w : world) (self : WAFTester)
    (nm cat method path : string) (params data headers : option strdict) (expected : bool)
    (s s' : state) (r : TestResult) :
  run_test w self nm cat method path params data headers expected s = (Return r, s') ->
  error r = PyNone /\
  (forall str_e,
     respond w (List.length (sent s)) (request_of self method path params data headers)
       = RequestException str_e ->
     message r = PyStr str_e /\ status_code r = 0).
Proof.
  intros H. apply run_test_inv in H. destruct H as (status & d & rt & T & -> & _).
  cbv zeta in T. split; [reflexivity|].
  intros str_e F.
  pose proof (test_request_eq w self method path params data headers s) as Q.
  cbv zeta in Q. rewrite F, T in Q. cbn in Q.
  injection Q as -> -> _. split; reflexivity.
Qed.

Lemma run_test_error_is_none_witness :
  exists r s',
    run_test unreachable_target local_tester "Basic SQLi - Union Select" "SQLi" "GET" "/"
      (Some [("id", "1' OR '1'='1")]) None None true initial = (Return r, s') /\
    error r = PyNone /\ message r = PyStr "Connection refused" /\ status_code r = 0.
Proof.
  eexists. eexists. split; [vm_compute; reflexivity|].
  match goal with
  | |- error ?r = _ /\ _ =>
      destruct (run_test_error_is_none unreachable_target local_tester
                  "Basic SQLi - Union Select" "SQLi" "GET" "/"
                  (Some [("id", "1' OR '1'='1")]) None None true initial _ r eq_refl)
        as [He Hm]
  end.
  split; [exact He|]. apply (Hm "Connection refused"). reflexivity.
Defined.

(** ** Stepping through the monad *)

Lemma with_output_nil (s : state) : with_output s [] = s.
Proof. destruct s; unfold with_output; cbn. now rewrite app_nil_r. Qed.

Lemma with_output_app (s : state) (a b : list output) :
  with_output (with_output s a) b = with_output s (a ++ b).
Proof. unfold with_output; cbn. now rewrite app_assoc. Qed.

Lemma bind_ret {A B} (a : A) (k : A -> M B) (s : state) : bind (ret a) k s = k a s.
Proof. reflexivity. Qed.

Lemma bind_print {B} (o : output) (k : unit -> M B) (s : state) :
  bind (print o) k s = k tt (with_output s [o]).
Proof. reflexivity. Qed.

Lemma print_eq (o : output) (s : state) : print o s = (Return tt, with_output s [o]).
Proof. reflexivity. Qed.

Lemma bind_get_results {B} (k : list TestResult -> M B) (s : state) :
  bind get_results k s = k (results s) s.
Proof. reflexivity. Qed.

Lemma bind_tick {A B} (w : world) (read : world -> nat -> A) (k : A -> M B) (s : state) :
  bind (tick w read) k s =
  k (read w (ticks s))
    {| results := results s; sent := sent s; ticks := S (ticks s); stdout := stdout s |}.
Proof. reflexivity. Qed.

Lemma bind_assoc {A B C} (m : M A) (f : A -> M B) (k : B -> M C) (s : state) :
  bind (bind m f) k s = bind m (fun a => bind (f a) k) s.
Proof. unfold bind. destruct (m s) as [[a|e] s1]; reflexivity. Qed.

Lemma bind_inv {A B} (m : M A) (k : A -> M B) (s s' : state) (b : B) :
  bind m k s = (Return b, s') ->
  exists a s1, m s = (Return a, s1) /\ k a s1 = (Return b, s').
Proof.
  unfold bind. destruct (m s) as [[a|e] s1]; [|discriminate].
  intros H. now exists a, s1.
Qed.

(** A loop whose body only prints. *)
Lemma for_each_emit {A} (body : A -> M unit) (g : A -> list output) (l : list A) :
  (forall x s, body x s = (Return tt, with_output s (g x))) ->
  forall s, for_each l body s = (Return tt, with_output s (flat_map g l)).
Proof.
  intros Hbody. induction l as [|x l IH]; intros s; cbn.
  - unfold ret. now rewrite with_output_nil.
  - unfold bind. rewrite Hbody, IH, with_output_app. reflexivity.
Qed.

Lemma bind_for_each_emit {A B} (body : A -> M unit) (g : A -> list output) (l : list A)
    (k : unit -> M B) (s : state) :
  (forall x s, body x s = (Return tt, with_output s (g x))) ->
  bind (for_each l body) k s = k tt (with_output s (flat_map g l)).
Proof. intros Hbody. unfold bind. now rewrite (for_each_emit body g l Hbody). Qed.

Lemma flat_map_singleton {A B} (f : A -> B) (l : list A) :
  flat_map (fun x => [f x]) l = map f l.
Proof. induction l; cbn; congruence. Qed.

(** ** The reporter *)

Section Reporter.

Variable w : world.
Variable self : WAFTester.

Lemma print_summary_eq (s : state) :
  results s <> [] ->
  let rs := results s in
  print_summary w self s =
  match py_set (filter py_truthy (map rule_id rs)) with
  | None => (Raise TypeError, with_output s (summary_head rs))
  | Some [] => (Return (summary_code rs), summarised w s (summary_head rs))
  | Some (k :: ids) =>
      match py_sorted (k :: ids) with
      | None => (Raise TypeError, with_output s (summary_head rs ++ [OutRulesTitle]))
      | Some ordered =>
          (Return (summary_code rs),
           summarised w s (summary_head rs ++ OutRulesTitle :: map (rule_line rs) ordered))
      end
  end.
Proof.
  intros Hne rs. unfold print_summary.
  rewrite bind_print, bind_get_results.
  rewrite bind_print.
  assert (Hz : (Z.of_nat (List.length (results (with_output s [OutSummaryTitle]))) =? 0) = false).
  { cbn. apply Z.eqb_neq. destruct (results s); [congruence|cbn; lia]. }
  rewrite Hz, bind_ret. rewrite !bind_print.
  cbn [results with_output] in *. fold rs.
  rewrite (bind_for_each_emit _ (fun cs => [category_line cs])); [|reflexivity].
  rewrite flat_map_singleton.
  assert (Hfail : forall B (k : unit -> M B) s0,
    bind (match failed_tests rs with
          | [] => ret tt
          | t :: l =>
              print OutFailedTitle;;;
              for_each (t :: l)
                (fun result : TestResult =>
                 print (OutFailedTest (name result) (expected_blocked result)
                          (actual_blocked result) (status_code result));;;
                 (if py_truthy (message result)
                  then print (OutFailedMessage (message result))
                  else ret tt))
          end) k s0 = k tt (with_output s0 (failed_block rs))).
  { intros B k s0. unfold failed_block. destruct (failed_tests rs) as [|t l].
    - now rewrite bind_ret, with_output_nil.
    - rewrite bind_assoc, bind_print.
      rewrite (bind_for_each_emit _ failed_lines).
      + now rewrite with_output_app.
      + intros x s1. unfold failed_lines. rewrite bind_print.
        destruct (py_truthy (message x)); [rewrite print_eq, with_output_app | unfold ret]; reflexivity. }
  rewrite Hfail.
  assert (Hslow : forall B (k : unit -> M B) s0,
    bind (match slow_tests rs with
          | [] => ret tt
          | t :: l =>
              print OutSlowTitle;;;
              for_each (t :: l)
                (fun result : TestResult =>
                 print (OutSlowTest (name result) (response_time result)))
          end) k s0 = k tt (with_output s0 (slow_block rs))).
  { intros B k s0. unfold slow_block. destruct (slow_tests rs) as [|t l].
    - now rewrite bind_ret, with_output_nil.
    - rewrite bind_assoc, bind_print.
      rewrite (bind_for_each_emit _ (fun r => [OutSlowTest (name r) (response_time r)]));
        [|reflexivity].
      now rewrite flat_map_singleton, with_output_app. }
  rewrite Hslow. rewrite !with_output_app.
  match goal with
  | |- context [with_output s ?o] => change o with (summary_head rs)
  end.
  destruct (py_set (filter py_truthy (map rule_id rs))) as [[|k ids]|].
  - rewrite !bind_ret, bind_tick, bind_print.
    unfold ret, summarised, with_output, summary_code; cbn [results sent ticks stdout].
    now rewrite <- app_assoc.
  - rewrite bind_ret, bind_assoc, bind_print, bind_assoc.
    destruct (py_sorted (k :: ids)) as [ordered|].
    + rewrite bind_ret.
      rewrite (bind_for_each_emit _ (fun k => [rule_line rs k])); [|reflexivity].
      rewrite flat_map_singleton, bind_tick, bind_print, !with_output_app.
      unfold ret, summarised, with_output, summary_code; cbn [results sent ticks stdout app].
      now rewrite <- !app_assoc.
    + unfold bind, raise. now rewrite with_output_app.
  - reflexivity.
Qed.

Lemma print_summary_empty (s : state) :
  results s = [] ->
  print_summary w self s = (Raise ZeroDivisionError, with_output s [OutSummaryTitle; OutTotal 0]).
Proof.
  intros H. unfold print_summary.
  rewrite bind_print, bind_get_results, bind_print.
  cbn [results with_output]. rewrite H. cbn.
  unfold bind, raise. now rewrite with_output_app.
Qed.

Lemma summary_head_lines (rs : list TestResult) : Forall summary_line (summary_head rs).
Proof.
  unfold summary_head.
  cbv zeta.
  match goal with |- Forall _ (?a ++ ?b) => apply Forall_app; split end.
  - repeat (apply Forall_cons; [split; reflexivity|]). constructor.
  - repeat (apply Forall_app; split).
    + apply Forall_forall. intros o Ho. apply in_map_iff in Ho.
      destruct Ho as (cs & <- & _). split; reflexivity.
    + unfold failed_block. destruct (failed_tests rs) as [|r l]; [constructor|].
      apply Forall_cons; [split; reflexivity|].
      apply Forall_forall. intros o Ho. apply in_flat_map in Ho.
      destruct Ho as (x & _ & Ho). unfold failed_lines in Ho.
      destruct Ho as [<-|Ho]; [split; reflexivity|].
      destruct (py_truthy (message x)); [|contradiction].
      destruct Ho as [<-|[]]. split; reflexivity.
    + unfold slow_block. destruct (slow_tests rs) as [|r l]; [constructor|].
      apply Forall_cons; [split; reflexivity|].
      apply Forall_forall. intros o Ho. apply in_map_iff in Ho.
      destruct Ho as (x & <- & _). split; reflexivity.
Qed.

(** Every way [print_summary] can return: at least one record, the code
    computed from the failures, and only summary lines printed. *)
Lemma print_summary_inv (s s' : state) (code : Z) :
  print_summary w self s = (Return code, s') ->
  results s <> [] /\ code = summary_code (results s) /\
  exists out, s' = summarised w s out /\ Forall summary_line out.
Proof.
  intros H.
  destruct (results s) as [|r0 rs0] eqn:Hrs.
  { rewrite print_summary_empty in H by assumption. discriminate. }
  assert (Hne : results s <> []) by (rewrite Hrs; discriminate).
  rewrite (print_summary_eq s Hne) in H. rewrite <- Hrs.
  split; [assumption|].
  destruct (py_set (filter py_truthy (map rule_id (results s)))) as [[|k ids]|];
    [| |discriminate].
  - injection H as <- <-. split; [reflexivity|].
    exists (summary_head (results s)). split; [reflexivity|]. apply summary_head_lines.
  - destruct (py_sorted (k :: ids)) as [ordered|]; [|discriminate].
    injection H as <- <-. split; [reflexivity|].
    exists (summary_head (results s) ++ OutRulesTitle :: map (rule_line (results s)) ordered)%list.
    split; [reflexivity|].
    apply Forall_app. split; [apply summary_head_lines|].
    apply Forall_cons; [split; reflexivity|].
    apply Forall_forall. intros o Ho. apply in_map_iff in Ho.
    destruct Ho as (x & <- & _). split; reflexivity.
Qed.

End Reporter.

(** ** The run *)

Section Run.

Variable w : world.
Variable self : WAFTester.

Lemma run_test_step (nm cat method path : string) (params data headers : option strdict)
    (expected : bool) (s s' : state) (r : TestResult) :
  run_test w self nm cat method path params data headers expected s = (Return r, s') ->
  s' = with_result (after_request s (request_of self method path params data headers)) r /\
  (name r = nm /\ category r = cat /\ expected_blocked r = expected /\
   payload r = payload_str params data path) /\
  actual_blocked r = (status_code r =? 403) /\ error r = PyNone.
Proof.
  intros H. apply run_test_inv in H. destruct H as (status & d & rt & _ & -> & ->).
  cbn. auto 10.
Qed.

Lemma last_n_app {A} (l1 l2 : list A) (n : nat) :
  (n <= List.length l2)%nat -> last_n n (l1 ++ l2) = last_n n l2.
Proof.
  intros Hn. unfold last_n. rewrite length_app, skipn_app.
  rewrite skipn_all2 by lia.
  replace (List.length l1 + List.length l2 - n - List.length l1)%nat
    with (List.length l2 - n)%nat by lia.
  reflexivity.
Qed.

(** The steps on a state written out as a record, so that the state stays
    one record along a run. *)
Lemma step_print {B} (o : output) (k : unit -> M B) R S T O :
  bind (print o) k {| results := R; sent := S; ticks := T; stdout := O |}
  = k tt {| results := R; sent := S; ticks := T; stdout := O ++ [o] |}.
Proof. reflexivity. Qed.

Lemma step_tick {A B} (read : world -> nat -> A) (k : A -> M B) R S T O :
  bind (tick w read) k {| results := R; sent := S; ticks := T; stdout := O |}
  = k (read w T) {| results := R; sent := S; ticks := Datatypes.S T; stdout := O |}.
Proof. reflexivity. Qed.

Lemma step_get_results {B} (k : list TestResult -> M B) R S T O :
  bind get_results k {| results := R; sent := S; ticks := T; stdout := O |}
  = k R {| results := R; sent := S; ticks := T; stdout := O |}.
Proof. reflexivity. Qed.

Lemma step_print_results {B} (l : list TestResult) (k : unit -> M B) R S T O :
  bind (for_each l print_test_result) k {| results := R; sent := S; ticks := T; stdout := O |}
  = k tt {| results := R; sent := S; ticks := T; stdout := O ++ map test_line l |}.
Proof.
  rewrite (bind_for_each_emit print_test_result (fun r => [test_line r])) by reflexivity.
  now rewrite flat_map_singleton.
Qed.

Lemma step_run_test {B} (nm cat method path : string) (params data headers : option strdict)
    (expected : bool) (k : TestResult -> M B) R S T O (b : B) (s' : state) :
  bind (run_test w self nm cat method path params data headers expected) k
    {| results := R; sent := S; ticks := T; stdout := O |} = (Return b, s') ->
  exists r,
    k r {| results := R ++ [r];
           sent := S ++ [request_of self method path params data headers];
           ticks := Datatypes.S (Datatypes.S T); stdout := O |} = (Return b, s') /\
    recorded {| tc_category := cat; tc_name := nm; tc_method := method; tc_path := path;
                tc_params := params; tc_body := data; tc_expected_blocked := expected |} r.
Proof.
  intros H. apply bind_inv in H. destruct H as (r & s1 & E & H).
  apply run_test_step in E. destruct E as (-> & E1 & E2).
  exists r. split; [exact H|]. split; [exact E1|exact E2].
Qed.

Ltac run_step H :=
  first
    [ rewrite step_print in H
    | rewrite step_tick in H
    | rewrite step_get_results in H
    | rewrite step_print_results in H
    | let r := fresh "r" in
      let E := fresh "E" in
      apply step_run_test in H; destruct H as (r & H & E) ].

Lemma run_all_tests_inv (s s' : state) (o : option Z) :
  run_all_tests w self s = (Return o, s') ->
  exists rs code,
    Forall2 recorded spec_catalogue rs /\
    print_summary w self (before_summary w self s rs) = (Return code, s') /\
    o = None.
Proof.
  intros H. unfold run_all_tests in H.
  destruct s as [R S T O].
  repeat run_step H.
  apply bind_inv in H. destruct H as (code & s1 & P & H).
  injection H as <- <-.
  exists [r; r0; r1; r2; r3; r4; r5; r6; r7; r8; r9; r10; r11; r12; r13; r14; r15; r16; r17;
          r18; r19; r20], code.
  split; [repeat (constructor; [assumption|]); constructor|].
  split; [|reflexivity].
  clear E E0 E1 E2 E3 E4 E5 E6 E7 E8 E9 E10 E11 E12 E13 E14 E15 E16 E17 E18 E19 E20.
  match type of P with
  | print_summary _ _ ?st = _ =>
      replace (before_summary w self {| results := R; sent := S; ticks := T; stdout := O |}
                 [r; r0; r1; r2; r3; r4; r5; r6; r7; r8; r9; r10; r11; r12; r13; r14; r15;
                  r16; r17; r18; r19; r20]) with st; [exact P|]
  end.
  clear P.
  unfold before_summary. cbn [results sent ticks stdout].
  f_equal.
  - now rewrite <- !app_assoc.
  - now rewrite <- !app_assoc.
  - rewrite <- !app_assoc. cbn [app].
    rewrite !last_n_app by (cbn; lia).
    reflexivity.
Qed.

(** A run that returns: it returns [None], has made one record per entry
    of the catalogue, and has printed the per-test lines and the summary. *)
Lemma run_all_tests_returns (s s' : state) (o : option Z) :
  run_all_tests w self s = (Return o, s') ->
  exists rs out,
    o = None /\ Forall2 recorded spec_catalogue rs /\ Forall summary_line out /\
    s' = after_run w self s rs out.
Proof.
  intros H. apply run_all_tests_inv in H. destruct H as (rs & code & F & P & ->).
  apply print_summary_inv in P. destruct P as (_ & _ & out & -> & Hout).
  exists rs, (out ++ [OutCompleted (datetime_now w (45 + ticks s))]).
  split; [reflexivity|]. split; [assumption|]. split.
  - apply Forall_app. split; [assumption|]. repeat constructor.
  - unfold after_run, summarised, before_summary. cbn [results sent ticks stdout].
    f_equal. now rewrite <- !app_assoc.
Qed.

End Run.

(** ** What no part of the program undoes

    Whether a computation returns or raises, it leaves the requests sent
    and the records made so far in place, and the records it adds are
    classified. *)

Section Monotone.

Variable w : world.

Lemma extends_refl (s : state) : extends w s s.
Proof.
  split; [exists []|exists []]; rewrite ?app_nil_r; auto.
Qed.

Lemma extends_trans (s1 s2 s3 : state) :
  extends w s1 s2 -> extends w s2 s3 -> extends w s1 s3.
Proof.
  intros [[q1 H1] (r1 & H2 & F1)] [[q2 H3] (r2 & H4 & F2)]. split.
  - exists (q1 ++ q2). now rewrite H3, H1, app_assoc.
  - exists (r1 ++ r2). split; [now rewrite H4, H2, app_assoc|].
    apply Forall_app; auto.
Qed.

Lemma extends_same (s s' : state) :
  sent s' = sent s -> results s' = results s -> extends w s s'.
Proof.
  intros H1 H2. split; [exists []|exists []]; rewrite ?app_nil_r; auto.
Qed.

Lemma monotone_ret {A} (a : A) : monotone w (ret a).
Proof. intros s o s' [= <- <-]. apply extends_refl. Qed.

Lemma monotone_raise {A} (e : exn) : monotone w (raise (A:=A) e).
Proof. intros s o s' [= <- <-]. apply extends_refl. Qed.

Lemma monotone_print (o : output) : monotone w (print o).
Proof. intros s r s' [= <- <-]. now apply extends_same. Qed.

Lemma monotone_get_results : monotone w get_results.
Proof. intros s r s' [= <- <-]. apply extends_refl. Qed.

Lemma monotone_tick {A} (read : world -> nat -> A) : monotone w (tick w read).
Proof. intros s r s' [= <- <-]. now apply extends_same. Qed.

Lemma monotone_bind {A B} (m : M A) (k : A -> M B) :
  monotone w m -> (forall a, monotone w (k a)) -> monotone w (bind m k).
Proof.
  intros Hm Hk s o s' H. unfold bind in H.
  destruct (m s) as [[a|e] s1] eqn:E.
  - eapply extends_trans; [eapply Hm; eassumption|eapply Hk; eassumption].
  - injection H as <- <-. eapply Hm; eassumption.
Qed.

Lemma monotone_for_each {A} (l : list A) (body : A -> M unit) :
  (forall x, monotone w (body x)) -> monotone w (for_each l body).
Proof.
  intros Hb. induction l as [|x l IH]; cbn.
  - apply monotone_ret.
  - apply monotone_bind; auto.
Qed.

Lemma monotone_test_request (self : WAFTester) (method path : string)
    (params data headers : option strdict) :
  monotone w (test_request w self method path params data headers).
Proof.
  intros s o s' H. rewrite test_request_eq in H.
  destruct (returned _ _); injection H as <- <-;
    (split; [eexists; reflexivity|exists []; cbn; rewrite app_nil_r; auto]).
Qed.

Lemma monotone_run_test (self : WAFTester) (nm cat method path : string)
    (params data headers : option strdict) (expected : bool) :
  monotone w (run_test w self nm cat method path params data headers expected).
Proof.
  intros s o s' H.
  destruct (test_request w self method path params data headers s)
    as [[[[status response] rt]|e] s1] eqn:E.
  - pose proof (monotone_test_request _ _ _ _ _ _ _ _ _ E) as X.
    rewrite (run_test_eq _ _ _ _ _ _ _ _ _ _ _ _ _ _ _ E) in H.
    destruct response; injection H as <- <-; try exact X.
    eapply extends_trans; [exact X|].
    split; [exists []; cbn; now rewrite app_nil_r|].
    eexists. split; [reflexivity|].
    apply Forall_cons; [|apply Forall_nil].
    split; [reflexivity|]. split; [reflexivity|]. cbn.
    exists (ticks s). rewrite test_request_eq in E.
    destruct (respond w _ _) as [st [v|]|str_e| |str_e]; cbn in E; congruence.
  - rewrite (run_test_raises _ _ _ _ _ _ _ _ _ _ _ _ _ E) in H.
    injection H as <- <-. eapply monotone_test_request; eassumption.
Qed.

Ltac monotone_step :=
  first
    [ apply monotone_ret | apply monotone_raise | apply monotone_print
    | apply monotone_get_results | apply monotone_tick | apply monotone_run_test
    | apply monotone_test_request
    | apply monotone_for_each; intros ?
    | apply monotone_bind; [|intros ?]
    | match goal with
      | |- monotone _ (match ?x with _ => _ end) => destruct x
      end ].

Lemma monotone_print_summary (self : WAFTester) : monotone w (print_summary w self).
Proof. unfold print_summary. repeat monotone_step. Qed.

Lemma monotone_run_all_tests (self : WAFTester) : monotone w (run_all_tests w self).
Proof.
  unfold run_all_tests.
  repeat first [apply monotone_print_summary | unfold print_test_result; monotone_step].
Qed.

Lemma monotone_main_try (args : Args) (tester : WAFTester) :
  monotone w (main_try w args tester).
Proof.
  unfold main_try.
  repeat first [apply monotone_run_all_tests | monotone_step].
Qed.

Lemma monotone_suite (args : Args) (tester : WAFTester) : monotone w (suite w args tester).
Proof.
  unfold suite. destruct (arg_json args);
    repeat first [apply monotone_run_all_tests | monotone_step].
Qed.

End Monotone.

(** ** The program *)

Section Program.

Variable w : world.
Variable args : Args.

Local Abbreviation tester := (WAFTester_init (arg_url args) (arg_timeout args)).
Local Abbreviation healthy := (after_request initial (health_request args)).

Lemma main_try_eq :
  main_try w args tester initial =
  match returned (respond w 0%nat (health_request args))
          (elapsed_ms (time_time w 0%nat) (time_time w 1%nat)) with
  | None => (Raise (raised (respond w 0%nat (health_request args))),
             {| results := []; sent := [health_request args]; ticks := 1; stdout := [] |})
  | Some (status, _, _) =>
      if status =? 200 then suite w args tester healthy
      else (Raise (SystemExit (Some 1)),
            with_output healthy [OutNotResponding (arg_url args) status])
  end.
Proof.
  unfold main_try. unfold bind at 1. rewrite test_request_eq.
  change (request_of tester "GET" "/health" None None None) with (health_request args).
  change (List.length (sent initial)) with 0%nat.
  change (ticks initial) with 0%nat.
  destruct (returned _ _) as [[[status j] rt]|]; [|reflexivity].
  unfold bind at 1.
  destruct (status =? 200); reflexivity.
Qed.

(** The handlers of [main] only print. *)
Lemma main_keeps (o : outcome unit) (s : state) :
  main_try w args tester initial = (o, s) ->
  sent (snd (main w args)) = sent s /\ results (snd (main w args)) = results s.
Proof.
  intros H. unfold main. rewrite H.
  destruct o as [[]|[|[code|]| | | |str_e]]; split; reflexivity.
Qed.

(** The first request of any run is the health check. *)
Lemma main_first_request :
  exists rest, sent (snd (main w args)) = health_request args :: rest.
Proof.
  destruct (main_try w args tester initial) as [o s] eqn:E.
  destruct (main_keeps o s E) as [-> _].
  rewrite main_try_eq in E.
  destruct (returned _ _) as [[[status j] rt]|].
  - destruct (status =? 200).
    + apply monotone_suite in E. destruct E as [[rqs ->] _]. now exists rqs.
    + injection E as _ <-. now exists [].
  - injection E as _ <-. now exists [].
Qed.

(** Every record of any run, complete or not, is classified. *)
Lemma main_results_classified : Forall (classified w) (results (snd (main w args))).
Proof.
  destruct (main_try w args tester initial) as [o s] eqn:E.
  destruct (main_keeps o s E) as [_ ->].
  apply monotone_main_try in E. destruct E as [_ (rs & -> & F)]. exact F.
Qed.

Lemma main_unhealthy (status : Z) (j : pyval) (rt : float) (s1 : state) :
  test_request w tester "GET" "/health" None None None initial
    = (Return (status, j, rt), s1) ->
  status <> 200 ->
  main w args = (1, with_output healthy [OutNotResponding (arg_url args) status]).
Proof.
  intros T Hs. unfold main. rewrite main_try_eq.
  rewrite test_request_eq in T.
  change (request_of tester "GET" "/health" None None None) with (health_request args) in T.
  change (List.length (sent initial)) with 0%nat in T.
  change (ticks initial) with 0%nat in T.
  destruct (returned _ _) as [[[status' j'] rt']|]; [|discriminate].
  injection T as -> _ _ _.
  apply Z.eqb_neq in Hs. rewrite Hs. reflexivity.
Qed.

(** A run that passes the health check and completes, in either mode. *)
Lemma main_healthy (j : pyval) (rt : float) (s1 s2 : state) (o : option Z) :
  test_request w tester "GET" "/health" None None None initial = (Return (200, j, rt), s1) ->
  run_all_tests w tester s1 = (Return o, s2) ->
  s1 = healthy /\
  main w args =
  (0, if arg_json args
      then {| results := results s2; sent := sent s2; ticks := S (ticks s2);
              stdout := stdout s2 ++
                [OutJson (json_output (datetime_now w (ticks s2)) (arg_url args) (results s2))] |}
      else s2).
Proof.
  intros T R.
  assert (s1 = healthy) as ->.
  { rewrite test_request_eq in T. destruct (returned _ _); [|discriminate].
    now injection T as _ <-. }
  split; [reflexivity|].
  pose proof (run_all_tests_returns _ _ _ _ _ R) as (rs & out & -> & _).
  unfold main. rewrite main_try_eq.
  rewrite test_request_eq in T.
  change (request_of tester "GET" "/health" None None None) with (health_request args) in T.
  change (List.length (sent initial)) with 0%nat in T.
  change (ticks initial) with 0%nat in T.
  destruct (returned _ _) as [[[status' j'] rt']|]; [|discriminate].
  injection T as -> _ _.
  cbn [Z.eqb Pos.eqb]. unfold suite.
  destruct (arg_json args).
  - unfold bind at 1. rewrite R. reflexivity.
  - unfold bind. rewrite R. reflexivity.
Qed.

End Program.

(** ** The catalogue and the run *)


Lemma recorded_length (rs : list TestResult) :
  Forall2 recorded spec_catalogue rs -> List.length rs = 22%nat.
Proof. intros F. apply Forall2_length in F. now rewrite <- F. Qed.

(** C4: a run that completes has sent the requests of the twenty-two
    entries of the catalogue of the specification, in the order of its
    table (seven SQLi, six XSS, three Path Traversal, three Command
    Injection, three Normal; blocking expected of all but the Normal ones),
    and has appended one record per entry, in that order, each carrying the
    name, category, payload and expectation of its entry. *)
Theorem run_all_tests_follows_catalogue (w : world) (self : WAFTester) (s s' : state)
    (o : option Z) :
  run_all_tests w self s = (Return o, s') ->
  exists rs,
    results s' = results s ++ rs /\
    sent s' = sent s ++ map (case_request self) spec_catalogue /\
    Forall2 result_of_case spec_catalogue rs /\
    List.length rs = 22%nat /\
    map tc_category spec_catalogue
      = repeat "SQLi" 7 ++ repeat "XSS" 6 ++ repeat "Path Traversal" 3
        ++ repeat "Command Injection" 3 ++ repeat "Normal" 3 /\
    Forall (fun tc => tc_expected_blocked tc = negb (tc_category tc =? "Normal")%string)
      spec_catalogue.
Proof.
  intros H. apply run_all_tests_returns in H. destruct H as (rs & out & _ & F & _ & ->).
  exists rs. split; [reflexivity|]. split; [reflexivity|]. split.
  - eapply Forall2_impl; [|exact F]. intros tc r [Hr _]. exact Hr.
  - split; [now apply recorded_length|]. split; [reflexivity|].
    repeat constructor.
Qed.

Lemma run_all_tests_follows_catalogue_witness :
  exists rs,
    results (snd (run_all_tests strict_waf local_tester initial)) = results initial ++ rs /\
    sent (snd (run_all_tests strict_waf local_tester initial))
      = sent initial ++ map (case_request local_tester) spec_catalogue /\
    Forall2 result_of_case spec_catalogue rs /\
    List.length rs = 22%nat /\
    map tc_category spec_catalogue
      = repeat "SQLi" 7 ++ repeat "XSS" 6 ++ repeat "Path Traversal" 3
        ++ repeat "Command Injection" 3 ++ repeat "Normal" 3 /\
    Forall (fun tc => tc_expected_blocked tc = negb (tc_category tc =? "Normal")%string)
      spec_catalogue.
Proof.
  apply (run_all_tests_follows_catalogue strict_waf local_tester initial
           (snd (run_all_tests strict_waf local_tester initial)) None).
  vm_compute. reflexivity.
Defined.


(** [print_summary] returns 0 exactly when no record failed. *)
Lemma summary_code_zero (rs : list TestResult) :
  summary_code rs = 0 <-> failed_tests rs = [].
Proof.
  unfold summary_code, failed_tests.
  assert (H : (List.length (filter is_pass rs)
               + List.length (filter (fun r => negb (is_pass r)) rs))%nat = List.length rs).
  { induction rs as [|r rs IH]; cbn; [reflexivity|]. destruct (is_pass r); cbn; lia. }
  fold is_pass. change (fun r => negb (is_pass r)) with (fun r => negb (is_pass r)) in H.
  destruct (_ - _ =? 0) eqn:E.
  - apply Z.eqb_eq in E. split; [intros _|reflexivity].
    apply length_zero_iff_nil. unfold is_pass in *. lia.
  - apply Z.eqb_neq in E. split; [discriminate|]. intros F. exfalso. apply E.
    unfold is_pass in *. rewrite F in H. cbn in H. lia.
Qed.

(** C6: the first request of the program is the GET of /health; when the
    status the client returns for it is not 200, the program exits with
    code 1 having printed the error, made no record and sent nothing else. *)
Theorem health_check_aborts (w : world) (args : Args) (status : Z) (j : pyval) (rt : float)
    (s1 : state) :
  test_request w (WAFTester_init (arg_url args) (arg_timeout args)) "GET" "/health"
    None None None initial = (Return (status, j, rt), s1) ->
  status <> 200 ->
  (exists rest, sent (snd (main w args)) = health_request args :: rest) /\
  fst (main w args) = 1 /\
  fst (main w args) <> 0 /\
  results (snd (main w args)) = [] /\
  sent (snd (main w args)) = [health_request args] /\
  stdout (snd (main w args)) = [OutNotResponding (arg_url args) status].
Proof.
  intros T Hs. split; [apply main_first_request|].
  rewrite (main_unhealthy w args status j rt s1 T Hs). cbn.
  repeat split. discriminate.
Qed.

Lemma health_check_aborts_witness :
  (exists rest, sent (snd (main unhealthy_target console_args))
                = health_request console_args :: rest) /\
  fst (main unhealthy_target console_args) = 1 /\
  fst (main unhealthy_target console_args) <> 0 /\
  results (snd (main unhealthy_target console_args)) = [] /\
  sent (snd (main unhealthy_target console_args)) = [health_request console_args] /\
  stdout (snd (main unhealthy_target console_args))
    = [OutNotResponding (arg_url console_args) 503].
Proof.
  apply (health_check_aborts unhealthy_target console_args 503 (PyDict [])
           (elapsed_ms (clock 0) (clock 1))
           (after_request initial (health_request console_args))).
  - reflexivity.
  - discriminate.
Defined.

(** C2, on a target that lets everything through: the nineteen attack
    cases fail, [print_summary] computes the code 1 for them, and the
    process still exits with code 0 in the console mode. *)
Theorem console_exit_code_ignores_failures :
  arg_json console_args = false /\
  List.length (failed_tests (results (snd (main open_target console_args)))) = 19%nat /\
  summary_code (results (snd (main open_target console_args))) = 1 /\
  fst (main open_target console_args) = 0.
Proof. vm_compute. repeat split. Qed.

(** In the console mode every run that completes exits with code 0: the
    code [print_summary] returns is dropped by [run_all_tests]. *)
Lemma console_exit_code_always_zero (w : world) (args : Args) (j : pyval) (rt : float)
    (s1 s2 : state) (o : option Z) :
  arg_json args = false ->
  test_request w (WAFTester_init (arg_url args) (arg_timeout args)) "GET" "/health"
    None None None initial = (Return (200, j, rt), s1) ->
  run_all_tests w (WAFTester_init (arg_url args) (arg_timeout args)) s1 = (Return o, s2) ->
  main w args = (0, s2).
Proof.
  intros Hj T R. destruct (main_healthy w args j rt s1 s2 o T R) as [_ ->].
  now rewrite Hj.
Qed.




(** ** Sorting *)

Section Sorting.

Context {A : Type}.
Variable lt : A -> A -> bool.
Variable R : A -> A -> Prop.
Variable P : A -> Prop.

Hypothesis lt_R : forall x y, P x -> P y -> lt y x = true -> R y x.
Hypothesis not_lt_R : forall x y, P x -> P y -> lt y x = false -> R x y.
Hypothesis R_trans : forall x y z, P x -> P y -> P z -> R x y -> R y z -> R x z.

Lemma insert_by_perm (x : A) (l : list A) : Permutation (x :: l) (insert_by lt x l).
Proof.
  induction l as [|y l IH]; cbn; [reflexivity|].
  destruct (lt y x); [|reflexivity].
  rewrite perm_swap. now apply perm_skip.
Qed.

Lemma sort_by_perm (l : list A) : Permutation l (sort_by lt l).
Proof.
  induction l as [|x l IH]; cbn; [reflexivity|].
  rewrite <- insert_by_perm. now apply perm_skip.
Qed.

Lemma sort_by_length (l : list A) : List.length (sort_by lt l) = List.length l.
Proof. symmetry. apply Permutation_length, sort_by_perm. Qed.

Lemma insert_by_sorted (x : A) (l : list A) :
  P x -> Forall P l -> StronglySorted R l -> StronglySorted R (insert_by lt x l).
Proof.
  intros Px Pl Sl. induction Sl as [|y l Sl IH Hy]; cbn.
  - repeat constructor.
  - apply Forall_cons_iff in Pl. destruct Pl as [Py Pl].
    destruct (lt y x) eqn:E.
    + constructor; [auto|].
      eapply Permutation_Forall; [apply insert_by_perm|].
      constructor; [apply lt_R; assumption|assumption].
    + assert (Rxy : R x y) by (apply not_lt_R; assumption).
      constructor; [now constructor|].
      constructor; [assumption|].
      rewrite Forall_forall in *. intros z Hz.
      apply (R_trans x y z); auto.
Qed.

Lemma sort_by_sorted (l : list A) : Forall P l -> StronglySorted R (sort_by lt l).
Proof.
  induction l as [|x l IH]; intros Pl; cbn; [constructor|].
  apply Forall_cons_iff in Pl. destruct Pl as [Px Pl].
  apply insert_by_sorted; auto.
  eapply Permutation_Forall; [apply sort_by_perm|assumption].
Qed.

End Sorting.

Lemma sorted_app_inv {A} (R : A -> A -> Prop) (l1 l2 : list A) :
  StronglySorted R (l1 ++ l2) ->
  StronglySorted R l1 /\ forall a b, In a l1 -> In b l2 -> R a b.
Proof.
  induction l1 as [|x l1 IH]; cbn; intros H.
  - split; [constructor|contradiction].
  - apply StronglySorted_inv in H. destruct H as [S F].
    destruct (IH S) as [S1 H1]. apply Forall_app in F. destruct F as [F1 F2].
    split; [now constructor|].
    intros a b [<-|Ha] Hb; [|now apply H1].
    rewrite Forall_forall in F2. now apply F2.
Qed.

(** ** The order of floating-point numbers *)

Lemma SFcompare_antisym (a b : spec_float) :
  SFcompare b a = option_map CompOpp (SFcompare a b).
Proof.
  destruct a as [[]|[]| |[] m1 e1], b as [[]|[]| |[] m2 e2]; cbn; try reflexivity.
  all: change (Pos.compare_cont Eq m1 m2) with (Pos.compare m1 m2);
       change (Pos.compare_cont Eq m2 m1) with (Pos.compare m2 m1).
  all: rewrite (Z.compare_antisym e1 e2), (Pos.compare_antisym m1 m2).
  all: destruct (e1 ?= e2); cbn; try reflexivity.
  all: destruct (m1 ?= m2)%positive; reflexivity.
Qed.

Lemma SFleb_trans (a b c : spec_float) :
  SFleb a b = true -> SFleb b c = true -> SFleb a c = true.
Proof.
  unfold SFleb.
  destruct a as [[]|[]| |[] m1 e1], b as [[]|[]| |[] m2 e2], c as [[]|[]| |[] m3 e3];
    cbn; try reflexivity; try discriminate.
  all: change (Pos.compare_cont Eq m1 m2) with (Pos.compare m1 m2);
       change (Pos.compare_cont Eq m2 m3) with (Pos.compare m2 m3);
       change (Pos.compare_cont Eq m1 m3) with (Pos.compare m1 m3).
  all: destruct (Z.compare_spec e1 e2), (Z.compare_spec e2 e3), (Z.compare_spec e1 e3);
    try lia; try reflexivity; try discriminate.
  all: destruct (Pos.compare_spec m1 m2), (Pos.compare_spec m2 m3), (Pos.compare_spec m1 m3);
    cbn; try lia; try reflexivity; try discriminate.
Qed.

Lemma SFcompare_defined (a b : spec_float) :
  SFeqb a a = true -> SFeqb b b = true -> exists c, SFcompare a b = Some c.
Proof.
  unfold SFeqb.
  destruct a as [[]|[]| |[] m1 e1], b as [[]|[]| |[] m2 e2]; cbn;
    try discriminate; intros _ _; eexists; reflexivity.
Qed.

Lemma float_le_trans (x y z : float) :
  (x <=? y)%float = true -> (y <=? z)%float = true -> (x <=? z)%float = true.
Proof. rewrite !leb_spec. apply SFleb_trans. Qed.

Lemma float_lt_le (x y : float) : (x <? y)%float = true -> (x <=? y)%float = true.
Proof.
  rewrite ltb_spec, leb_spec. unfold SFltb, SFleb.
  destruct (SFcompare _ _) as [[]|]; congruence.
Qed.

Lemma float_not_lt_le (x y : float) :
  is_nan x = false -> is_nan y = false ->
  (x <? y)%float = false -> (y <=? x)%float = true.
Proof.
  unfold is_nan. rewrite !eqb_spec, ltb_spec, leb_spec. intros Hx Hy.
  apply negb_false_iff in Hx, Hy.
  destruct (SFcompare_defined _ _ Hx Hy) as [c Hc].
  unfold SFltb, SFleb. rewrite (SFcompare_antisym (Prim2SF x) (Prim2SF y)), Hc.
  destruct c; cbn; congruence.
Qed.

(** ** The slowest tests *)

Lemma flat_map_nil {A B} (f : A -> list B) (l : list A) :
  (forall x, In x l -> f x = []) -> flat_map f l = [].
Proof.
  induction l as [|x l IH]; cbn; intros H; [reflexivity|].
  rewrite H by now left. apply IH. intros y Hy. apply H. now right.
Qed.

Lemma flat_map_map_singleton {A B C} (f : B -> list C) (g : A -> B) (h : A -> C) (l : list A) :
  (forall x, f (g x) = [h x]) -> flat_map f (map g l) = map h l.
Proof. intros H. induction l as [|x l IH]; cbn; [reflexivity|]. now rewrite H, IH. Qed.

Lemma failed_block_lines {B} (f : output -> list B) (rs : list TestResult) :
  f OutFailedTitle = [] ->
  (forall n e a c, f (OutFailedTest n e a c) = []) ->
  (forall m, f (OutFailedMessage m) = []) ->
  flat_map f (failed_block rs) = [].
Proof.
  intros H1 H2 H3. unfold failed_block. destruct (failed_tests rs) as [|r l]; [reflexivity|].
  apply flat_map_nil. intros o [<-|Ho]; [assumption|].
  apply in_flat_map in Ho. destruct Ho as (x & _ & Ho). unfold failed_lines in Ho.
  destruct Ho as [<-|Ho]; [apply H2|].
  destruct (py_truthy (message x)); [|contradiction].
  destruct Ho as [<-|[]]. apply H3.
Qed.

Lemma summary_head_slow_lines (rs : list TestResult) :
  slow_lines (summary_head rs) = map (fun r => (name r, response_time r)) (slow_tests rs).
Proof.
  unfold slow_lines, summary_head. cbv zeta. rewrite !flat_map_app.
  rewrite (flat_map_nil slow_of_line (map category_line _)).
  2:{ intros o Ho. apply in_map_iff in Ho. now destruct Ho as (cs & <- & _). }
  rewrite failed_block_lines by reflexivity.
  unfold slow_block. destruct (slow_tests rs) as [|r l]; [reflexivity|].
  cbn [flat_map slow_of_line app].
  now rewrite (flat_map_map_singleton slow_of_line _ (fun r => (name r, response_time r))).
Qed.

(** C9: when the response times are numbers, the slowest-tests list has
    [min 5 (number of records)] entries, runs from the longest response
    time down, and holds the records with the highest response times: the
    records left out are none of them slower than one in the list. It is
    the list the summary prints. *)
Theorem slow_tests_top_five (rs : list TestResult) :
  Forall (fun r => is_nan (response_time r) = false) rs ->
  List.length (slow_tests rs) = Nat.min 5 (List.length rs) /\
  StronglySorted (fun a b => (response_time b <=? response_time a)%float = true)
    (slow_tests rs) /\
  (exists rest,
     Permutation rs (slow_tests rs ++ rest) /\
     forall a b, In a (slow_tests rs) -> In b rest ->
                 (response_time b <=? response_time a)%float = true) /\
  slow_lines (summary_head rs) = map (fun r => (name r, response_time r)) (slow_tests rs).
Proof.
  intros Hnum. unfold slow_tests.
  set (lt := fun a b : TestResult => (response_time b <? response_time a)%float).
  set (R := fun a b : TestResult => (response_time b <=? response_time a)%float = true).
  assert (S : StronglySorted R (sort_by lt rs)).
  { apply (sort_by_sorted lt R (fun r => is_nan (response_time r) = false)); [| | |exact Hnum].
    - intros x y _ _ H. now apply float_lt_le.
    - intros x y Hx Hy H. now apply float_not_lt_le.
    - intros x y z _ _ _ H1 H2. unfold R in *. eapply float_le_trans; eassumption. }
  rewrite <- (firstn_skipn 5 (sort_by lt rs)) in S.
  apply sorted_app_inv in S. destruct S as [S1 S2].
  split; [now rewrite length_firstn, sort_by_length|].
  split; [exact S1|]. split.
  - exists (skipn 5 (sort_by lt rs)). split; [|exact S2].
    rewrite firstn_skipn. apply sort_by_perm.
  - apply summary_head_slow_lines.
Qed.

Lemma slow_tests_top_five_witness :
  List.length (slow_tests sample_results) = Nat.min 5 (List.length sample_results) /\
  StronglySorted (fun a b => (response_time b <=? response_time a)%float = true)
    (slow_tests sample_results) /\
  (exists rest,
     Permutation sample_results (slow_tests sample_results ++ rest) /\
     forall a b, In a (slow_tests sample_results) -> In b rest ->
                 (response_time b <=? response_time a)%float = true) /\
  slow_lines (summary_head sample_results)
    = map (fun r => (name r, response_time r)) (slow_tests sample_results).
Proof.
  apply (slow_tests_top_five sample_results).
  apply Forall_forall. intros r Hr. apply negb_true_iff.
  revert r Hr. apply forallb_forall. vm_compute. reflexivity.
Defined.

(** ** Rule coverage *)

Lemma typed_truthy_ids (rs : list TestResult) :
  Forall typed_rule_id rs ->
  filter py_truthy (map rule_id rs) = map PyInt (int_ids rs).
Proof.
  induction 1 as [|r rs [H|[z H]] _ IH]; cbn; [reflexivity| |].
  - rewrite H. exact IH.
  - rewrite H. cbn. destruct (z =? 0); cbn; now rewrite IH.
Qed.

Lemma py_eq_int (x y : Z) : py_eq (PyInt x) (PyInt y) = (x =? y).
Proof. cbn. rewrite Z.eqb_compare. reflexivity. Qed.

Lemma set_add_ints (l acc : list Z) :
  fold_left set_add (map PyInt l) (map PyInt acc) = map PyInt (fold_left Z_set_add l acc).
Proof.
  revert acc. induction l as [|x l IH]; intros acc; cbn; [reflexivity|].
  rewrite <- IH. f_equal. unfold set_add, Z_set_add.
  replace (existsb (same_member (PyInt x)) (map PyInt acc)) with (existsb (Z.eqb x) acc).
  - destruct (existsb _ _); [reflexivity|]. now rewrite map_app.
  - induction acc as [|a acc IHa]; cbn [existsb map]; [reflexivity|].
    unfold same_member at 1. cbn [is_nan_value andb]. rewrite orb_false_r.
    now rewrite py_eq_int, IHa.
Qed.

Lemma py_set_ints (l : list Z) :
  py_set (map PyInt l) = Some (map PyInt (fold_left Z_set_add l [])).
Proof.
  unfold py_set.
  replace (forallb hashable (map PyInt l)) with true.
  - f_equal. apply (set_add_ints l []).
  - symmetry. apply forallb_forall. intros v Hv. apply in_map_iff in Hv.
    now destruct Hv as (z & <- & _).
Qed.

Lemma insert_by_map {A B} (f : A -> B) (lt : A -> A -> bool) (lt' : B -> B -> bool)
    (x : A) (l : list A) :
  (forall a b, lt' (f a) (f b) = lt a b) ->
  insert_by lt' (f x) (map f l) = map f (insert_by lt x l).
Proof.
  intros H. induction l as [|y l IH]; cbn; [reflexivity|].
  rewrite H. destruct (lt y x); cbn; [now rewrite IH|reflexivity].
Qed.

Lemma sort_by_map {A B} (f : A -> B) (lt : A -> A -> bool) (lt' : B -> B -> bool)
    (l : list A) :
  (forall a b, lt' (f a) (f b) = lt a b) ->
  sort_by lt' (map f l) = map f (sort_by lt l).
Proof.
  intros H. unfold sort_by. induction l as [|x l IH]; cbn; [reflexivity|].
  rewrite IH. now apply insert_by_map.
Qed.

Lemma py_sorted_ints (l : list Z) :
  py_sorted (map PyInt l) = Some (map PyInt (sort_by Z.ltb l)).
Proof.
  unfold py_sorted, sortable.
  replace (forallb is_number (map PyInt l)) with true.
  - rewrite orb_true_r. cbn [orb]. f_equal. now apply sort_by_map.
  - symmetry. apply forallb_forall. intros v Hv. apply in_map_iff in Hv.
    now destruct Hv as (z & <- & _).
Qed.





Lemma count_rule_typed (rs : list TestResult) (z : Z) :
  Forall typed_rule_id rs ->
  count_rule rs (PyInt z) = Z.of_nat (List.length (filter (has_rule z) rs)).
Proof.
  intros H. unfold count_rule. do 2 f_equal.
  induction H as [|r rs [Hr|[z' Hr]] _ IH]; cbn; [reflexivity| |];
    unfold has_rule; rewrite Hr, ?py_eq_int; cbn [py_eq as_number];
    now rewrite IH.
Qed.


Lemma insert_by_not_nil {A} (lt : A -> A -> bool) (x : A) (l : list A) :
  insert_by lt x l <> [].
Proof. destruct l as [|y l]; cbn; [discriminate|]. destruct (lt y x); discriminate. Qed.

(** [print_summary] on records that keep to the annotation. *)
Lemma print_summary_typed (w : world) (self : WAFTester) (s : state) :
  results s <> [] ->
  Forall typed_rule_id (results s) ->
  print_summary w self s
  = (Return (summary_code (results s)),
     summarised w s (summary_head (results s) ++ rules_block (results s))).
Proof.
  intros Hne Ht.
  rewrite (print_summary_eq w self s Hne). cbv zeta.
  rewrite (typed_truthy_ids _ Ht), py_set_ints.
  unfold rules_block, listed_rules.
  destruct (fold_left Z_set_add (int_ids (results s)) []) as [|k ids] eqn:E.
  - cbn. now rewrite app_nil_r.
  - cbn [map]. change (PyInt k :: map PyInt ids) with (map PyInt (k :: ids)).
    rewrite py_sorted_ints.
    destruct (sort_by Z.ltb (k :: ids)) as [|z zs] eqn:Es.
    { exfalso. cbn in Es. now apply insert_by_not_nil in Es. }
    do 3 f_equal. rewrite map_map.
    change (OutRule (fst (counted_rule (results s) z)) (snd (counted_rule (results s) z))
            :: map (fun z => OutRule (fst (counted_rule (results s) z))
                               (snd (counted_rule (results s) z))) zs)
      with (map (fun z => OutRule (fst (counted_rule (results s) z))
                            (snd (counted_rule (results s) z))) (z :: zs)).
    f_equal. apply map_ext. intros x.
    unfold rule_line, counted_rule. cbn [fst snd]. now rewrite count_rule_typed.
Qed.




(** ** Response times are numbers *)

Lemma iter_pos_invariant {A} (f : A -> A) (Q : A -> Prop) :
  (forall x, Q x -> Q (f x)) -> forall n x, Q x -> Q (iter_pos f n x).
Proof.
  intros Hf. induction n as [n IH|n IH|]; intros x Hx; cbn; auto.
Qed.

Lemma shr_1_nonneg (mrs : shr_record) : 0 <= shr_m mrs -> 0 <= shr_m (shr_1 mrs).
Proof.
  destruct mrs as [m r s]. cbn. destruct m as [|[p|p|]|[p|p|]]; cbn; lia.
Qed.

Lemma shr_fexp_nonneg (m e : Z) (l : location) :
  0 <= m -> 0 <= shr_m (fst (shr_fexp prec emax m e l)).
Proof.
  intros Hm. unfold shr_fexp, shr.
  assert (H0 : 0 <= shr_m (shr_record_of_loc m l)) by (destruct l as [|[]]; exact Hm).
  destruct (_ - e) as [|p|p]; cbn [fst]; try exact H0.
  apply (iter_pos_invariant shr_1 (fun x => 0 <= shr_m x)); [apply shr_1_nonneg|exact H0].
Qed.

Lemma round_nearest_even_nonneg (m : Z) (l : location) :
  0 <= m -> 0 <= round_nearest_even m l.
Proof. intros Hm. destruct l as [|[]]; cbn; [lia| |lia|lia]. destruct (Z.even m); lia. Qed.

(** Rounding a magnitude never gives NaN. *)
Lemma binary_round_aux_not_nan (sx : bool) (mx ex : Z) (lx : location) :
  0 <= mx -> binary_round_aux prec emax sx mx ex lx <> S754_nan.
Proof.
  intros Hm. unfold binary_round_aux.
  pose proof (shr_fexp_nonneg mx ex lx Hm) as H1.
  destruct (shr_fexp prec emax mx ex lx) as [mrs' e']. cbn [fst] in H1.
  pose proof (shr_fexp_nonneg _ e' loc_Exact
                (round_nearest_even_nonneg _ (loc_of_shr_record mrs') H1)) as H2.
  destruct (shr_fexp prec emax (round_nearest_even _ _) e' loc_Exact) as [mrs'' e''].
  cbn [fst] in H2.
  destruct (shr_m mrs'') as [|p|p]; [discriminate| |lia].
  destruct (e'' <=? _); discriminate.
Qed.

Lemma binary_normalize_not_nan (m e : Z) (sz : bool) :
  binary_normalize prec emax m e sz <> S754_nan.
Proof.
  unfold binary_normalize, binary_round. destruct m as [|p|p]; [discriminate| |].
  all: destruct (shl_align _ _ _) as [mz ez]; apply binary_round_aux_not_nan; lia.
Qed.

Lemma SFsub_not_nan (x y : spec_float) :
  finite_sf x -> finite_sf y -> SFsub prec emax x y <> S754_nan.
Proof.
  destruct x as [[]|[]| |sx mx ex], y as [[]|[]| |sy my ey]; cbn; try contradiction;
    intros _ _; try discriminate.
  apply binary_normalize_not_nan.
Qed.

Lemma SFmul_not_nan (x y : spec_float) :
  x <> S754_nan -> (exists s m e, y = S754_finite s m e) -> SFmul prec emax x y <> S754_nan.
Proof.
  intros Hx (s & m & e & ->).
  destruct x as [[]|[]| |sx mx ex]; cbn; try discriminate; try congruence.
  apply binary_round_aux_not_nan. lia.
Qed.

Lemma is_nan_Prim2SF (f : float) : is_nan f = false <-> Prim2SF f <> S754_nan.
Proof.
  unfold Prim2SF. destruct (is_nan f); [split; congruence|].
  split; [intros _|reflexivity].
  destruct (is_zero f); [discriminate|]. destruct (is_infinity f); [discriminate|].
  destruct (Z.frexp f) as [r ex]. destruct (shr_fexp _ _ _ _ _) as [shr e'].
  destruct (shr_m shr); discriminate.
Qed.

Lemma is_finite_Prim2SF (f : float) : is_finite f = true -> finite_sf (Prim2SF f).
Proof.
  unfold is_finite, Prim2SF. intros H. apply negb_true_iff, orb_false_iff in H.
  destruct H as [-> ->]. destruct (is_zero f); [exact I|].
  destruct (Z.frexp f) as [r ex]. destruct (shr_fexp _ _ _ _ _) as [shr e'].
  destruct (shr_m shr); exact I.
Qed.

(** The difference of two finite readings of the clock, in milliseconds,
    may overflow but is never NaN. *)
Lemma elapsed_ms_number (t0 t1 : float) :
  is_finite t0 = true -> is_finite t1 = true -> is_nan (elapsed_ms t0 t1) = false.
Proof.
  intros H0 H1. apply is_nan_Prim2SF. unfold elapsed_ms.
  rewrite mul_spec, sub_spec. apply SFmul_not_nan.
  - apply SFsub_not_nan; now apply is_finite_Prim2SF.
  - vm_compute. eauto.
Qed.

(** With a clock that shows finite numbers, the response times of the
    records of any run are numbers. *)
Lemma main_response_times_numbers (w : world) (args : Args) :
  finite_clock w ->
  Forall (fun r => is_nan (response_time r) = false) (results (snd (main w args))).
Proof.
  intros Hc. eapply Forall_impl; [|apply main_results_classified].
  intros r (_ & _ & n & ->). now apply elapsed_ms_number.
Qed.

(** ** Runs that complete *)

Lemma request_of_timeout (self : WAFTester) (method path : string)
    (params data headers : option strdict) :
  request_timeout (request_of self method path params data headers) = timeout self.
Proof.
  unfold request_of. destruct (upper method =? "GET")%string; [reflexivity|].
  destruct (upper method =? "POST")%string; reflexivity.
Qed.

Section Completion.

Variable w : world.
Variable self : WAFTester.
Hypothesis Hpolite : polite w.
Hypothesis Htimeout : 0 < timeout self.

Lemma step_run_test_polite {B} (nm cat method path : string)
    (params data headers : option strdict) (expected : bool) (k : TestResult -> M B) R S T O :
  exists r,
    typed_rule_id r /\
    bind (run_test w self nm cat method path params data headers expected) k
      {| results := R; sent := S; ticks := T; stdout := O |}
    = k r {| results := R ++ [r];
             sent := S ++ [request_of self method path params data headers];
             ticks := Datatypes.S (Datatypes.S T); stdout := O |}.
Proof.
  set (s := {| results := R; sent := S; ticks := T; stdout := O |}).
  pose proof (test_request_eq w self method path params data headers s) as E.
  cbv zeta in E.
  pose proof (Hpolite (List.length (sent s))
                (request_of self method path params data headers)) as Hd.
  rewrite request_of_timeout in Hd. specialize (Hd Htimeout).
  destruct (respond w _ _) as [status [v|]|str_e| |str_e]; cbn [returned digestible] in *;
    try contradiction.
  - destruct v; try contradiction.
    eexists. split; [|unfold bind; rewrite (run_test_eq _ _ _ _ _ _ _ _ _ _ _ _ _ _ _ E);
                      reflexivity].
    exact Hd.
  - eexists. split; [|unfold bind; rewrite (run_test_eq _ _ _ _ _ _ _ _ _ _ _ _ _ _ _ E);
                      reflexivity].
    now left.
  - eexists. split; [|unfold bind; rewrite (run_test_eq _ _ _ _ _ _ _ _ _ _ _ _ _ _ _ E);
                      reflexivity].
    now left.
Qed.

Ltac polite_step :=
  first
    [ rewrite step_print
    | rewrite step_tick
    | rewrite step_get_results
    | rewrite step_print_results
    | match goal with
      | |- context [bind (run_test _ _ ?nm ?cat ?m ?p ?pa ?da ?he ?ex) ?k
                      {| results := ?R; sent := ?S; ticks := ?T; stdout := ?O |}] =>
          let r := fresh "r" in
          let Hr := fresh "Hr" in
          let E := fresh "E" in
          destruct (step_run_test_polite nm cat m p pa da he ex k R S T O) as (r & Hr & E);
          rewrite E; clear E
      end ].

(** Against a polite target the suite runs to its end. *)
Lemma run_all_tests_completes (s : state) :
  Forall typed_rule_id (results s) ->
  fst (run_all_tests w self s) = Return None.
Proof.
  intros Ht. destruct s as [R S T O]. cbn [results] in Ht. unfold run_all_tests.
  repeat polite_step.
  unfold bind at 1. rewrite print_summary_typed.
  - reflexivity.
  - cbn [results]. intros H. apply (f_equal (@List.length _)) in H.
    rewrite !length_app in H. cbn in H. lia.
  - cbn [results]. rewrite !Forall_app. repeat split; auto.
Qed.

End Completion.

(** Against a polite target that answers 200 to the health check, the
    program run with a positive timeout ends with code 0 in both modes. *)
Lemma main_completes (w : world) (args : Args) (body : option pyval) :
  polite w ->
  0 < arg_timeout args ->
  respond w 0%nat (health_request args) = Response 200 body ->
  fst (main w args) = 0.
Proof.
  intros Hp Hto Hh.
  destruct (run_all_tests w (WAFTester_init (arg_url args) (arg_timeout args))
              (after_request initial (health_request args))) as [o s2] eqn:R.
  pose proof (run_all_tests_completes w (WAFTester_init (arg_url args) (arg_timeout args)) Hp
                Hto (after_request initial (health_request args)) (Forall_nil _)) as C.
  rewrite R in C. cbn in C. subst o.
  pose proof (test_request_eq w (WAFTester_init (arg_url args) (arg_timeout args))
                "GET" "/health" None None None initial) as T.
  cbv zeta in T.
  change (request_of (WAFTester_init (arg_url args) (arg_timeout args))
            "GET" "/health" None None None) with (health_request args) in T.
  change (List.length (sent initial)) with 0%nat in T.
  rewrite Hh in T.
  destruct body as [v|]; cbn [returned] in T;
    destruct (main_healthy w args _ _ _ _ _ T R) as [_ ->]; reflexivity.
Qed.

(** * Further properties of the program *)

(** ** Runs that stop early *)

Section Outcomes.

Variable w : world.
Variable self : WAFTester.

(** Every way [run_test] can raise: interrupted while waiting, handed a
    body that has no [get], or passing on what the session raised. The
    session was called, no record is made. *)
Lemma run_test_raise_inv (nm cat method path : string) (params data headers : option strdict)
    (expected : bool) (s s' : state) (e : exn) :
  run_test w self nm cat method path params data headers expected s = (Raise e, s') ->
  request_error e /\
  results s' = results s /\ stdout s' = stdout s /\
  sent s' = sent s ++ [request_of self method path params data headers].
Proof.
  intros H.
  destruct (test_request w self method path params data headers s)
    as [[[[status response] rt]|e'] s1] eqn:E.
  - rewrite (run_test_eq _ _ _ _ _ _ _ _ _ _ _ _ _ _ _ E) in H.
    rewrite test_request_eq in E.
    destruct (returned _ _) as [v|]; [|discriminate]. injection E as _ <-.
    destruct response; try discriminate; injection H as <- <-; unfold request_error; auto.
  - rewrite (run_test_raises _ _ _ _ _ _ _ _ _ _ _ _ _ E) in H. injection H as <- <-.
    rewrite test_request_eq in E.
    destruct (returned _ _) as [v|]; [discriminate|]. injection E as <- <-.
    split; [|auto]. unfold request_error.
    destruct (respond w _ _) as [st j|str_e| |str_e]; cbn; eauto.
Qed.

Lemma step_run_test_any {B} (nm cat method path : string)
    (params data headers : option strdict) (expected : bool) (k : TestResult -> M B)
    R S T O (o : outcome B) (s' : state) :
  bind (run_test w self nm cat method path params data headers expected) k
    {| results := R; sent := S; ticks := T; stdout := O |} = (o, s') ->
  (exists r,
     k r {| results := R ++ [r];
            sent := S ++ [request_of self method path params data headers];
            ticks := Datatypes.S (Datatypes.S T); stdout := O |} = (o, s') /\
     recorded {| tc_category := cat; tc_name := nm; tc_method := method; tc_path := path;
                 tc_params := params; tc_body := data; tc_expected_blocked := expected |} r)
  \/ (exists e,
        o = Raise e /\ request_error e /\
        results s' = R /\ stdout s' = O /\
        sent s' = S ++ [request_of self method path params data headers]).
Proof.
  intros H. unfold bind in H.
  destruct (run_test w self nm cat method path params data headers expected _)
    as [[r|e] s1] eqn:E.
  - left. apply run_test_step in E. destruct E as (-> & E1 & E2).
    exists r. split; [exact H|]. split; [exact E1|exact E2].
  - right. injection H as <- <-. apply run_test_raise_inv in E.
    destruct E as (He & Hr & Ho & Hs). exists e. auto.
Qed.

(** Every way [print_summary] can raise: no record to divide by, or rule
    ids that [set] or [sorted] refuse. Records and requests stay as they
    were. *)
Lemma print_summary_raise_inv (s s' : state) (e : exn) :
  print_summary w self s = (Raise e, s') ->
  results s' = results s /\ sent s' = sent s /\
  ((results s = [] /\ e = ZeroDivisionError) \/ (results s <> [] /\ e = TypeError)).
Proof.
  intros H. destruct (results s) as [|r0 rs0] eqn:Hrs.
  - rewrite print_summary_empty in H by assumption. injection H as <- <-.
    cbn. auto.
  - assert (Hne : results s <> []) by (rewrite Hrs; discriminate).
    rewrite (print_summary_eq w self s Hne) in H. cbv zeta in H.
    assert (Hr : r0 :: rs0 <> []) by discriminate.
    destruct (py_set _) as [[|k ids]|]; [discriminate| |].
    + destruct (py_sorted _) as [ordered|]; [discriminate|].
      injection H as <- <-. cbn. auto.
    + injection H as <- <-. cbn. auto.
Qed.

Ltac raise_finish n Hr :=
  exists n; eexists;
  split; [rewrite Hr, <- ?app_assoc;
          first [reflexivity | symmetry; apply app_nil_r]|];
  split; [cbn [app]; repeat (apply Forall2_cons; [assumption|]); apply Forall2_nil|].

Ltac raise_steps H n :=
  first
    [ rewrite step_print in H; raise_steps H n
    | rewrite step_tick in H; raise_steps H n
    | rewrite step_get_results in H; raise_steps H n
    | rewrite step_print_results in H; raise_steps H n
    | let r := fresh "r" in
      let e := fresh "e" in
      let E := fresh "E" in
      let Hs := fresh "Hs" in
      let Hr := fresh "Hr" in
      apply step_run_test_any in H;
      destruct H as [(r & H & E)|(e & H & E & Hr & _ & Hs)];
      [ raise_steps H constr:(S n)
      | injection H as <-; raise_finish n Hr;
        left; split; [cbn; lia|]; split; [exact E|];
        rewrite Hs, <- ?app_assoc; reflexivity ]
    | idtac ].

(** A run that raises: it was interrupted, met a body without [get] or an
    exception of the session at some request, after a record for each of the entries before it; or all
    twenty-two records were made and the summary met a rule id it cannot
    put in a set or sort. *)
Lemma run_all_tests_raises (s s' : state) (e : exn) :
  run_all_tests w self s = (Raise e, s') ->
  exists k rs,
    results s' = results s ++ rs /\
    Forall2 recorded (firstn k spec_catalogue) rs /\
    (((k < 22)%nat /\ request_error e /\
      sent s' = sent s ++ map (case_request self) (firstn (S k) spec_catalogue))
     \/ (k = 22%nat /\ e = TypeError /\
         sent s' = sent s ++ map (case_request self) spec_catalogue)).
Proof.
  intros H. destruct s as [R S T O]. unfold run_all_tests in H. cbn [results sent].
  raise_steps H 0%nat.
  unfold bind in H.
  destruct (print_summary w self _) as [[code|e1] s1] eqn:P; [discriminate|].
  injection H as <- <-. apply print_summary_raise_inv in P.
  cbn [results sent] in P. destruct P as (Hr & Hs & [[Hn _]|[_ ->]]).
  { apply (f_equal (@List.length _)) in Hn. rewrite !length_app in Hn. cbn in Hn. lia. }
  raise_finish 22%nat Hr.
  right. split; [reflexivity|]. split; [reflexivity|].
  rewrite Hs, <- ?app_assoc. reflexivity.
Qed.

End Outcomes.

(** ** Output is only added to *)

Section Printing.

Variable ok : output -> bool.

Lemma adds_lines_refl (s : state) : adds_lines ok s s.
Proof. exists []. now rewrite app_nil_r. Qed.

Lemma adds_lines_trans (s1 s2 s3 : state) :
  adds_lines ok s1 s2 -> adds_lines ok s2 s3 -> adds_lines ok s1 s3.
Proof.
  intros (o1 & H1 & F1) (o2 & H2 & F2). exists (o1 ++ o2). split.
  - now rewrite H2, H1, app_assoc.
  - now rewrite forallb_app, F1, F2.
Qed.

Lemma adds_lines_same (s s' : state) : stdout s' = stdout s -> adds_lines ok s s'.
Proof. intros H. exists []. now rewrite app_nil_r. Qed.

Lemma prints_only_ret {A} (a : A) : prints_only ok (ret a).
Proof. intros s o s' [= <- <-]. apply adds_lines_refl. Qed.

Lemma prints_only_raise {A} (e : exn) : prints_only ok (raise (A:=A) e).
Proof. intros s o s' [= <- <-]. apply adds_lines_refl. Qed.

Lemma prints_only_print (o : output) : ok o = true -> prints_only ok (print o).
Proof.
  intros Ho s r s' [= <- <-]. exists [o]. split; [reflexivity|]. cbn. now rewrite Ho.
Qed.

Lemma prints_only_get_results : prints_only ok get_results.
Proof. intros s r s' [= <- <-]. apply adds_lines_refl. Qed.

Lemma prints_only_tick {A} (w : world) (read : world -> nat -> A) :
  prints_only ok (tick w read).
Proof. intros s r s' [= <- <-]. now apply adds_lines_same. Qed.

Lemma prints_only_bind {A B} (m : M A) (k : A -> M B) :
  prints_only ok m -> (forall a, prints_only ok (k a)) -> prints_only ok (bind m k).
Proof.
  intros Hm Hk s o s' H. unfold bind in H.
  destruct (m s) as [[a|e] s1] eqn:E.
  - eapply adds_lines_trans; [eapply Hm; eassumption|eapply Hk; eassumption].
  - injection H as <- <-. eapply Hm; eassumption.
Qed.

Lemma prints_only_for_each {A} (l : list A) (body : A -> M unit) :
  (forall x, prints_only ok (body x)) -> prints_only ok (for_each l body).
Proof.
  intros Hb. induction l as [|x l IH]; cbn.
  - apply prints_only_ret.
  - apply prints_only_bind; auto.
Qed.

(** [run_test] prints nothing, whatever happens to it. *)
Lemma prints_only_run_test (w : world) (self : WAFTester) (nm cat method path : string)
    (params data headers : option strdict) (expected : bool) :
  prints_only ok (run_test w self nm cat method path params data headers expected).
Proof.
  intros s o s' H. apply adds_lines_same. destruct o as [r|e].
  - apply run_test_inv in H. destruct H as (status & d & rt & _ & _ & ->). reflexivity.
  - apply run_test_raise_inv in H. now destruct H as (_ & _ & H & _).
Qed.

End Printing.

Ltac prints_step :=
  first
    [ apply prints_only_ret | apply prints_only_raise
    | apply prints_only_print; reflexivity
    | apply prints_only_get_results | apply prints_only_tick | apply prints_only_run_test
    | apply prints_only_for_each; intros ?
    | apply prints_only_bind; [|intros ?]
    | match goal with
      | |- prints_only _ (match ?x with _ => _ end) => destruct x
      end ].

Lemma print_summary_no_json (w : world) (self : WAFTester) :
  prints_only not_json (print_summary w self).
Proof. unfold print_summary. repeat prints_step. Qed.

Lemma run_all_tests_no_json (w : world) (self : WAFTester) :
  prints_only not_json (run_all_tests w self).
Proof.
  unfold run_all_tests.
  repeat first [apply print_summary_no_json | unfold print_test_result; prints_step].
Qed.

Lemma no_json_filter (out : list output) :
  forallb not_json out = true -> filter is_json out = [].
Proof.
  induction out as [|o out IH]; cbn; [reflexivity|]. unfold not_json at 1.
  destruct (is_json o); cbn; [discriminate|exact IH].
Qed.

(** ** Exceptions of the session come from the session *)

Section Raising.

Variable ok : exn -> Prop.








End Raising.







(** ** Every way the program ends *)

Section Endings.

Variable w : world.
Variable args : Args.

Local Abbreviation tester := (WAFTester_init (arg_url args) (arg_timeout args)).
Local Abbreviation healthy := (after_request initial (health_request args)).

(** The five ways [main] ends: interrupted during the health check; a
    health check on which the session raises; a health check that does not
    answer 200; a suite that runs to its end; a suite that raises. *)
Lemma main_cases :
  (respond w 0%nat (health_request args) = Interrupted /\
   main w args = (130, {| results := []; sent := [health_request args]; ticks := 1;
                          stdout := [OutInterrupted] |}))
  \/ (exists str_e,
        respond w 0%nat (health_request args) = Raised str_e /\
        main w args = (1, {| results := []; sent := [health_request args]; ticks := 1;
                             stdout := [OutError str_e] |}))
  \/ (exists status j rt,
        returned (respond w 0%nat (health_request args))
          (elapsed_ms (time_time w 0%nat) (time_time w 1%nat)) = Some (status, j, rt) /\
        status <> 200 /\
        main w args = (1, with_output healthy [OutNotResponding (arg_url args) status]))
  \/ (exists s2,
        run_all_tests w tester healthy = (Return None, s2) /\
        main w args
        = (0, if arg_json args
              then {| results := results s2; sent := sent s2; ticks := S (ticks s2);
                      stdout := stdout s2 ++
                        [OutJson (json_output (datetime_now w (ticks s2)) (arg_url args)
                                    (results s2))] |}
              else s2))
  \/ (exists e s2,
        run_all_tests w tester healthy = (Raise e, s2) /\
        ((e = KeyboardInterrupt /\ main w args = (130, with_output s2 [OutInterrupted]))
         \/ ((e = AttributeError \/ e = TypeError \/ exists str_e, e = SessionError str_e) /\
             main w args = (1, with_output s2 [OutError (exn_text e)])))).
Proof.
  unfold main. rewrite main_try_eq.
  destruct (respond w 0%nat (health_request args)) as [status body|str_e| |str_e] eqn:Hh.
  - destruct (returned _ _) as [[[status' j] rt]|] eqn:Hret; [|destruct body; discriminate].
    destruct (status' =? 200) eqn:Hs.
    + right. right. right. unfold suite.
      destruct (run_all_tests w tester healthy) as [[o|e] s2] eqn:R.
      * left. pose proof (run_all_tests_returns _ _ _ _ _ R) as (rs & out & -> & _).
        exists s2. split; [reflexivity|].
        destruct (arg_json args); unfold bind; rewrite R; reflexivity.
      * right. exists e, s2. split; [reflexivity|].
        pose proof (run_all_tests_raises _ _ _ _ _ R) as (k & rs & _ & _ & He).
        destruct He as [(_ & [->|[->|[t ->]]] & _)|(_ & -> & _)];
          destruct (arg_json args); unfold bind; rewrite R; eauto 6.
    + right. right. left. exists status', j, rt. apply Z.eqb_neq in Hs. auto.
  - right. right. left. exists 0, (PyDict [("error", PyStr str_e)]),
      (elapsed_ms (time_time w 0%nat) (time_time w 1%nat)).
    cbn. repeat split. discriminate.
  - left. auto.
  - right. left. exists str_e. auto.
Qed.

End Endings.

Lemma after_run_facts (w : world) (self : WAFTester) (s s2 : state) :
  run_all_tests w self s = (Return None, s2) ->
  exists rs,
    Forall2 recorded spec_catalogue rs /\
    results s2 = results s ++ rs /\
    sent s2 = sent s ++ map (case_request self) spec_catalogue.
Proof.
  intros R. apply run_all_tests_returns in R. destruct R as (rs & out & _ & F & _ & ->).
  exists rs. auto.
Qed.


(** X2: the exit code of the program is 0, 1 or 130. With 0 the whole
    catalogue was sent after the health check and there is a record for each
    of its entries; with 1 the last line printed is the one of the failed
    health check or of the exception handler; with 130 it is the line of
    the interrupt handler. *)
Theorem main_exit_codes (w : world) (args : Args) :
  (fst (main w args) = 0 /\
   Forall2 recorded spec_catalogue (results (snd (main w args))) /\
   sent (snd (main w args))
   = health_request args
     :: map (case_request (WAFTester_init (arg_url args) (arg_timeout args))) spec_catalogue)
  \/ (fst (main w args) = 1 /\
      is_abort_line (last (stdout (snd (main w args))) OutInterrupted) = true)
  \/ (fst (main w args) = 130 /\
      last (stdout (snd (main w args))) OutSummaryTitle = OutInterrupted).
Proof.
  destruct (main_cases w args)
    as [[_ ->]|[(t & _ & ->)|[(status & j & rt & _ & _ & ->)|[(s2 & R & ->)|(e & s2 & R & H)]]]].
  - right. right. split; reflexivity.
  - right. left. split; reflexivity.
  - right. left. cbn [fst snd stdout with_output]. split; [reflexivity|].
    now rewrite last_last.
  - left. cbn [fst snd]. split; [reflexivity|].
    apply after_run_facts in R. destruct R as (rs & F & Hr & Hs).
    cbn [results sent after_request initial app] in Hr, Hs.
    destruct (arg_json args); cbn [results sent]; rewrite Hr, Hs; auto.
  - destruct H as [[-> ->]|[He ->]].
    + right. right. cbn [fst snd stdout with_output]. split; [reflexivity|].
      now rewrite last_last.
    + right. left. cbn [fst snd stdout with_output]. split; [reflexivity|].
      now rewrite last_last.
Qed.

(** X3: however a run ends, its records are those of the first [k]
    entries of the catalogue, in order, for some [k]; the requests sent are
    the health check followed by the requests of those entries, and of the
    next one when the run stopped at its request. *)
Theorem main_records_follow_catalogue (w : world) (args : Args) :
  exists k j,
    (k <= 22)%nat /\ (j = k \/ j = S k) /\
    Forall2 recorded (firstn k spec_catalogue) (results (snd (main w args))) /\
    sent (snd (main w args))
    = health_request args
      :: map (case_request (WAFTester_init (arg_url args) (arg_timeout args)))
           (firstn j spec_catalogue).
Proof.
  destruct (main_cases w args)
    as [[_ ->]|[(t & _ & ->)|[(status & j & rt & _ & _ & ->)|[(s2 & R & ->)|(e & s2 & R & H)]]]].
  - exists 0%nat, 0%nat. cbn. repeat split; auto. lia.
  - exists 0%nat, 0%nat. cbn. repeat split; auto. lia.
  - exists 0%nat, 0%nat. cbn. repeat split; auto. lia.
  - exists 22%nat, 22%nat. apply after_run_facts in R. destruct R as (rs & F & Hr & Hs).
    cbn [results sent after_request initial app] in Hr, Hs.
    split; [lia|]. split; [now left|].
    destruct (arg_json args); cbn [snd results sent]; rewrite Hr, Hs; auto.
  - apply run_all_tests_raises in R. destruct R as (k & rs & Hr & F & He).
    cbn [results sent after_request initial app] in Hr, He.
    assert (Hm : results (snd (main w args)) = rs /\
                 sent (snd (main w args)) = sent s2).
    { destruct H as [[_ ->]|[_ ->]]; cbn; auto. }
    destruct Hm as [-> ->].
    destruct He as [(Hk & _ & ->)|(-> & _ & ->)].
    + exists k, (S k). repeat split; auto. lia.
    + exists 22%nat, 22%nat. repeat split; auto.
Qed.

(** X4: a JSON document is printed only in the JSON mode and only by a run
    that ends with code 0; it is then the last line, the only document, and
    it is built from all the records. In the console mode, and whenever
    the run ends with another code, no document is printed. *)
Theorem main_json_document (w : world) (args : Args) :
  (arg_json args = true /\ fst (main w args) = 0 /\
   exists pre timestamp,
     stdout (snd (main w args))
     = pre ++ [OutJson (json_output timestamp (arg_url args) (results (snd (main w args))))] /\
     filter is_json pre = [])
  \/ ((arg_json args = false \/ fst (main w args) <> 0) /\
      filter is_json (stdout (snd (main w args))) = []).
Proof.
  destruct (main_cases w args)
    as [[_ ->]|[(t & _ & ->)|[(status & j & rt & _ & _ & ->)|[(s2 & R & ->)|(e & s2 & R & H)]]]].
  - right. split; [right; discriminate|reflexivity].
  - right. split; [right; discriminate|reflexivity].
  - right. split; [right; discriminate|reflexivity].
  - apply run_all_tests_no_json in R. destruct R as (out & Ho & Fo).
    cbn [stdout after_request initial app] in Ho. apply no_json_filter in Fo.
    destruct (arg_json args); cbn [fst snd stdout results].
    + left. split; [reflexivity|]. split; [reflexivity|].
      exists (stdout s2), (datetime_now w (ticks s2)). split; [reflexivity|].
      now rewrite Ho.
    + right. split; [now left|]. now rewrite Ho.
  - apply run_all_tests_no_json in R. destruct R as (out & Ho & Fo).
    cbn [stdout after_request initial app] in Ho. apply no_json_filter in Fo.
    right. destruct H as [[_ ->]|[_ ->]]; cbn [fst snd stdout with_output];
      (split; [right; discriminate|]); rewrite filter_app, Ho, Fo; reflexivity.
Qed.

(** ** The statistics by category *)

Lemma count_in_keys (c : string) (pass : bool) (cats : list (string * stats)) :
  map fst (count_in c pass cats)
  = if existsb (String.eqb c) (map fst cats) then map fst cats else map fst cats ++ [c].
Proof.
  induction cats as [|[c' st] cats IH]; cbn; [reflexivity|].
  rewrite (String.eqb_sym c c'). destruct (c' =? c)%string; cbn; [reflexivity|].
  rewrite IH. destruct (existsb _ _); reflexivity.
Qed.

Lemma count_in_assoc (c : string) (pass : bool) (cats : list (string * stats)) (k : string) :
  assoc k (count_in c pass cats)
  = if (c =? k)%string
    then Some (tally pass match assoc c cats with
                          | Some st => st
                          | None => {| st_total := 0; st_passed := 0; st_failed := 0 |}
                          end)
    else assoc k cats.
Proof.
  induction cats as [|[c' st] cats IH]; cbn.
  - destruct (c =? k)%string; reflexivity.
  - destruct (c' =? c)%string eqn:E; cbn.
    + apply String.eqb_eq in E. subst c'. destruct (c =? k)%string; reflexivity.
    + rewrite IH. destruct (c =? k)%string eqn:Ek; [|reflexivity].
      apply String.eqb_eq in Ek. subst k. now rewrite E.
Qed.

Lemma category_stats_snoc (rs : list TestResult) (r : TestResult) :
  category_stats (rs ++ [r]) = count_in (category r) (is_pass r) (category_stats rs).
Proof. unfold category_stats. now rewrite fold_left_app. Qed.

Lemma stats_of_snoc (c : string) (rs : list TestResult) (r : TestResult) :
  stats_of c (rs ++ [r])
  = if in_category c r then tally (is_pass r) (stats_of c rs) else stats_of c rs.
Proof.
  unfold stats_of. cbv zeta. rewrite filter_app. cbn [filter].
  destruct (in_category c r); [|now rewrite app_nil_r].
  rewrite !filter_app, !length_app. cbn [filter]. unfold tally. cbn [st_total st_passed st_failed].
  destruct (is_pass r); cbn [negb List.length]; f_equal; lia.
Qed.

Lemma filter_none {A} (f : A -> bool) (l : list A) :
  existsb f l = false -> filter f l = [].
Proof.
  induction l as [|x l IH]; cbn; [reflexivity|].
  destruct (f x); cbn; [discriminate|exact IH].
Qed.

(** What the dict [categories] holds under each key once the loop is over. *)
Lemma category_stats_assoc (rs : list TestResult) (c : string) :
  assoc c (category_stats rs)
  = if existsb (in_category c) rs then Some (stats_of c rs) else None.
Proof.
  induction rs as [|r rs IH] using rev_ind; [reflexivity|].
  rewrite category_stats_snoc, count_in_assoc, stats_of_snoc, existsb_app. cbn [existsb].
  rewrite orb_false_r. change (in_category c r) with (category r =? c)%string.
  destruct (category r =? c)%string eqn:E.
  - apply String.eqb_eq in E. subst c. rewrite IH, orb_true_r.
    destruct (existsb _ rs) eqn:Ex; [reflexivity|].
    do 2 f_equal. unfold stats_of. cbv zeta. now rewrite (filter_none _ _ Ex).
  - rewrite orb_false_r. exact IH.
Qed.

Lemma category_stats_keys (rs : list TestResult) :
  NoDup (map fst (category_stats rs)) /\
  forall c, In c (map fst (category_stats rs)) <-> existsb (in_category c) rs = true.
Proof.
  induction rs as [|r rs [N I]] using rev_ind.
  - split; [constructor|]. intros c. cbn. split; [contradiction|discriminate].
  - rewrite category_stats_snoc, count_in_keys.
    assert (Hex : existsb (String.eqb (category r)) (map fst (category_stats rs)) = true
                  <-> In (category r) (map fst (category_stats rs))).
    { rewrite existsb_exists. split.
      - intros (x & Hx & Ex). apply String.eqb_eq in Ex. now subst x.
      - intros H. exists (category r). split; [assumption|apply String.eqb_refl]. }
    destruct (existsb (String.eqb (category r)) _) eqn:E.
    + split; [assumption|]. intros c. rewrite I, existsb_app. cbn [existsb].
      rewrite orb_false_r. change (in_category c r) with (category r =? c)%string.
      destruct (category r =? c)%string eqn:Ec; [|now rewrite orb_false_r].
      apply String.eqb_eq in Ec. subst c. rewrite orb_true_r.
      split; [reflexivity|]. intros _. apply I, Hex. reflexivity.
    + assert (Hn : ~ In (category r) (map fst (category_stats rs))).
      { intros H. apply Hex in H. discriminate. }
      split.
      * apply NoDup_app; [assumption|repeat constructor; intros []|].
        intros a Ha [<-|[]]. contradiction.
      * intros c. rewrite in_app_iff, I, existsb_app. cbn [existsb In].
        rewrite orb_false_r. change (in_category c r) with (category r =? c)%string.
        destruct (category r =? c)%string eqn:Ec.
        -- apply String.eqb_eq in Ec. rewrite orb_true_r. intuition.
        -- apply String.eqb_neq in Ec. rewrite orb_false_r. intuition.
Qed.

Lemma assoc_in {A} (k : string) (v : A) (d : list (string * A)) :
  NoDup (map fst d) -> In (k, v) d -> assoc k d = Some v.
Proof.
  induction d as [|[k' v'] d IH]; cbn; [contradiction|].
  intros N [H|H].
  - injection H as -> ->. now rewrite String.eqb_refl.
  - apply NoDup_cons_iff in N. destruct N as [Hk N].
    destruct (k' =? k)%string eqn:E; [|auto].
    apply String.eqb_eq in E. subst k'. exfalso. apply Hk.
    apply in_map_iff. now exists (k, v).
Qed.

(** X5: when the loop over the records is done, the dict [categories] has
    exactly one key for each category that occurs among the records: every
    category of a record is a key, every key is the category of a record,
    and no key comes twice. Under the key of a category it holds the number
    of records of that category, the number of them that passed and the
    number that failed; so for every key, passed plus failed is the total,
    and the total is not 0. *)
Theorem category_stats_counts (rs : list TestResult) :
  NoDup (map fst (category_stats rs)) /\
  (forall c, In c (map fst (category_stats rs)) <-> exists r, In r rs /\ category r = c) /\
  (forall r, In r rs -> In (category r, stats_of (category r) rs) (category_stats rs)) /\
  (forall c st, In (c, st) (category_stats rs) ->
     st = stats_of c rs /\
     st_total st = Z.of_nat (List.length (filter (in_category c) rs)) /\
     st_passed st + st_failed st = st_total st /\
     0 < st_total st).
Proof.
  destruct (category_stats_keys rs) as [N I].
  assert (Hex : forall c, existsb (in_category c) rs = true
                          <-> exists r, In r rs /\ category r = c).
  { intros c. rewrite existsb_exists. unfold in_category.
    split; intros (r & Hr & Hc); exists r; (split; [assumption|]);
      now apply String.eqb_eq. }
  assert (Hst : forall c st, In (c, st) (category_stats rs) ->
                             existsb (in_category c) rs = true /\ st = stats_of c rs).
  { intros c st H.
    assert (Hc : existsb (in_category c) rs = true).
    { apply I. apply in_map_iff. now exists (c, st). }
    split; [exact Hc|].
    pose proof (assoc_in c st _ N H) as Ha.
    rewrite category_stats_assoc, Hc in Ha. now injection Ha as <-. }
  split; [exact N|]. split; [|split].
  - intros c. rewrite I. apply Hex.
  - intros r Hr.
    assert (Hk : In (category r) (map fst (category_stats rs))).
    { apply I, Hex. now exists r. }
    apply in_map_iff in Hk. destruct Hk as ([c st] & Hc & Hin). cbn in Hc. subst c.
    destruct (Hst _ _ Hin) as [_ ->]. exact Hin.
  - intros c st H. destruct (Hst c st H) as [Hc ->]. split; [reflexivity|].
    apply Hex in Hc. destruct Hc as (r & Hr & Hcat).
    assert (Hin : In r (filter (in_category c) rs)).
    { apply filter_In. split; [assumption|]. unfold in_category. now apply String.eqb_eq. }
    unfold stats_of. cbv zeta. cbn [st_total st_passed st_failed].
    set (mine := filter (in_category c) rs) in *.
    assert (Hsum : (List.length (filter is_pass mine)
                    + List.length (filter (fun r => negb (is_pass r)) mine))%nat
                   = List.length mine).
    { clearbody mine. clear. induction mine as [|x l IH]; cbn; [reflexivity|].
      destruct (is_pass x); cbn; lia. }
    split; [reflexivity|]. split; [lia|]. destruct mine; [contradiction|cbn; lia].
Qed.

(** ** The order of strings *)

Lemma ascii_compare_refl (a : ascii) : Ascii.compare a a = Eq.
Proof. unfold Ascii.compare. apply N.compare_refl. Qed.

Lemma ascii_compare_lt_trans (a b c : ascii) :
  Ascii.compare a b = Lt -> Ascii.compare b c = Lt -> Ascii.compare a c = Lt.
Proof. unfold Ascii.compare. rewrite !N.compare_lt_iff. lia. Qed.

Lemma string_compare_lt_trans (a b c : string) :
  String.compare a b = Lt -> String.compare b c = Lt -> String.compare a c = Lt.
Proof.
  revert b c. induction a as [|x a IH]; intros [|y b] [|z c]; cbn; try easy.
  destruct (Ascii.compare x y) eqn:E1; try discriminate;
    destruct (Ascii.compare y z) eqn:E2; try discriminate; intros H1 H2.
  - apply Ascii.compare_eq_iff in E1, E2. subst. rewrite ascii_compare_refl. eauto.
  - apply Ascii.compare_eq_iff in E1. subst. now rewrite E2.
  - apply Ascii.compare_eq_iff in E2. subst. now rewrite E1.
  - now rewrite (ascii_compare_lt_trans x y z).
Qed.

Lemma string_leb_trans (a b c : string) :
  String.leb a b = true -> String.leb b c = true -> String.leb a c = true.
Proof.
  unfold String.leb.
  destruct (String.compare a b) eqn:E1; try discriminate;
    destruct (String.compare b c) eqn:E2; try discriminate; intros _ _.
  - apply String.compare_eq_iff in E1. subst. now rewrite E2.
  - apply String.compare_eq_iff in E1. subst. now rewrite E2.
  - apply String.compare_eq_iff in E2. subst. now rewrite E1.
  - now rewrite (string_compare_lt_trans a b c).
Qed.

Lemma string_leb_neq_ltb (a b : string) :
  String.leb a b = true -> a <> b -> String.ltb a b = true.
Proof.
  unfold String.leb, String.ltb.
  destruct (String.compare a b) eqn:E; try discriminate; [|reflexivity].
  apply String.compare_eq_iff in E. contradiction.
Qed.

(** ** The lines by category *)

Lemma sorted_by_key_strict {A} (key : A -> string) (l : list A) :
  StronglySorted (fun a b => String.leb (key a) (key b) = true) l ->
  NoDup (map key l) ->
  StronglySorted (fun a b => String.ltb (key a) (key b) = true) l.
Proof.
  induction 1 as [|x l S IH F]; intros N; [constructor|].
  cbn in N. apply NoDup_cons_iff in N. destruct N as [Hx N].
  constructor; [auto|].
  rewrite Forall_forall in *. intros y Hy. apply string_leb_neq_ltb; [auto|].
  intros E. apply Hx. rewrite E. now apply in_map.
Qed.

Lemma summary_head_category_lines (rs : list TestResult) :
  flat_map category_of_line (summary_head rs)
  = map (fun cs => (fst cs, st_total (snd cs), st_passed (snd cs)))
      (sort_by (fun a b => String.ltb (fst a) (fst b)) (category_stats rs)).
Proof.
  unfold summary_head. cbv zeta. rewrite !flat_map_app.
  rewrite failed_block_lines by reflexivity.
  assert (Hs : flat_map category_of_line (slow_block rs) = []).
  { unfold slow_block. destruct (slow_tests rs) as [|r l]; [reflexivity|].
    apply flat_map_nil. intros o [<-|Ho]; [reflexivity|].
    apply in_map_iff in Ho. now destruct Ho as (x & <- & _). }
  rewrite Hs. cbn [flat_map category_of_line app]. rewrite !app_nil_r.
  now apply flat_map_map_singleton.
Qed.

(** The category lines among the first blocks of the summary. *)
Lemma summary_head_categories (rs : list TestResult) :
  exists cats,
    flat_map category_of_line (summary_head rs)
    = map (fun c => (c, st_total (stats_of c rs), st_passed (stats_of c rs))) cats /\
    StronglySorted (fun a b => String.ltb a b = true) cats /\
    forall c, In c cats <-> exists r, In r rs /\ category r = c.
Proof.
  set (sorted := sort_by (fun a b : string * stats => String.ltb (fst a) (fst b))
                   (category_stats rs)).
  pose proof (sort_by_perm (fun a b : string * stats => String.ltb (fst a) (fst b))
                (category_stats rs)) as Hp. fold sorted in Hp.
  destruct (category_stats_keys rs) as [N I].
  assert (Ns : NoDup (map fst sorted)).
  { eapply Permutation_NoDup; [apply Permutation_map; exact Hp|exact N]. }
  exists (map fst sorted). split; [|split].
  - rewrite summary_head_category_lines. fold sorted. rewrite map_map.
    apply map_ext_in. intros [c st] Hc. cbn [fst snd].
    apply (Permutation_in _ (Permutation_sym Hp)) in Hc.
    pose proof (assoc_in c st _ N Hc) as Ha.
    rewrite category_stats_assoc in Ha.
    destruct (existsb _ rs); [|discriminate]. now injection Ha as <-.
  - assert (S : StronglySorted (fun a b => String.ltb (fst a) (fst b) = true) sorted).
    { apply sorted_by_key_strict; [|exact Ns].
      apply (sort_by_sorted (fun a b : string * stats => String.ltb (fst a) (fst b))
               (fun a b => String.leb (fst a) (fst b) = true) (fun _ => True)).
      - intros x y _ _ H. unfold String.ltb in H. unfold String.leb.
        destruct (String.compare (fst y) (fst x)); congruence.
      - intros x y _ _ H. unfold String.ltb in H. unfold String.leb.
        rewrite String.compare_antisym.
        destruct (String.compare (fst y) (fst x)); cbn; congruence.
      - intros x y z _ _ _. apply string_leb_trans.
      - apply Forall_forall. auto. }
    clear -S. induction S as [|x l S IH F]; cbn; constructor; [exact IH|].
    rewrite Forall_forall in *. intros y Hy. apply in_map_iff in Hy.
    destruct Hy as (z & <- & Hz). auto.
  - intros c.
    assert (Hin : In c (map fst sorted) <-> In c (map fst (category_stats rs))).
    { split; apply Permutation_in; [apply Permutation_sym|];
        apply Permutation_map; exact Hp. }
    rewrite Hin, I, existsb_exists. unfold in_category.
    split; intros (r & Hr & E); exists r; (split; [assumption|]);
      now apply String.eqb_eq.
Qed.

(** ** The failed tests *)





(** ** The counts *)

Lemma pass_fail_partition (rs : list TestResult) :
  (List.length (filter is_pass rs) + List.length (failed_tests rs))%nat = List.length rs.
Proof.
  unfold failed_tests, is_pass.
  induction rs as [|r rs IH]; cbn; [reflexivity|].
  destruct (Bool.eqb (actual_blocked r) (expected_blocked r)); cbn; lia.
Qed.

(** X8: in the JSON document 'total' is the number of entries of
    'results' (one per record, in order), 'passed' and 'failed' add up to
    it, and 'failed' is 0 exactly when no record failed, which is when
    [print_summary] would return the code 0. *)
Theorem json_output_counts (timestamp url : string) (rs : list TestResult) :
  exists total passed failed,
    py_get (json_output timestamp url rs) "total" = Some (PyInt total) /\
    py_get (json_output timestamp url rs) "passed" = Some (PyInt passed) /\
    py_get (json_output timestamp url rs) "failed" = Some (PyInt failed) /\
    py_get (json_output timestamp url rs) "results" = Some (PyList (map json_result rs)) /\
    total = Z.of_nat (List.length (map json_result rs)) /\
    passed + failed = total /\
    0 <= passed /\ 0 <= failed /\
    (failed = 0 <-> failed_tests rs = []).
Proof.
  eexists _, _, _. repeat (split; [reflexivity|]).
  pose proof (pass_fail_partition rs) as H.
  split; [now rewrite length_map|]. split; [lia|]. split; [lia|]. split; [lia|].
  split.
  - intros E. apply length_zero_iff_nil. lia.
  - intros ->. reflexivity.
Qed.

(** ** What [print_summary] returns *)

(** X9: when [print_summary] returns, the code is 0 if no record failed
    and 1 otherwise; the records and the requests are as before, and the
    date was read once. *)
Theorem print_summary_code (w : world) (self : WAFTester) (s s' : state) (code : Z) :
  print_summary w self s = (Return code, s') ->
  ((code = 0 /\ failed_tests (results s) = []) \/
   (code = 1 /\ failed_tests (results s) <> [])) /\
  results s' = results s /\ sent s' = sent s /\ ticks s' = S (ticks s).
Proof.
  intros H. apply print_summary_inv in H. destruct H as (_ & -> & out & -> & _).
  split; [|repeat split].
  pose proof (summary_code_zero (results s)) as Hz. unfold summary_code in *.
  destruct (_ =? 0).
  - left. split; [reflexivity|]. now apply Hz.
  - right. split; [reflexivity|]. intros E. apply Hz in E. discriminate.
Qed.

Lemma print_summary_code_witness :
  ((0 = 0 /\ failed_tests (results (with_result initial (blocked_record (PyInt 942100)))) = []) \/
   (0 = 1 /\ failed_tests (results (with_result initial (blocked_record (PyInt 942100)))) <> [])) /\
  results (snd (print_summary strict_waf local_tester
                  (with_result initial (blocked_record (PyInt 942100)))))
  = results (with_result initial (blocked_record (PyInt 942100))) /\
  sent (snd (print_summary strict_waf local_tester
               (with_result initial (blocked_record (PyInt 942100)))))
  = sent (with_result initial (blocked_record (PyInt 942100))) /\
  ticks (snd (print_summary strict_waf local_tester
                (with_result initial (blocked_record (PyInt 942100)))))
  = S (ticks (with_result initial (blocked_record (PyInt 942100)))).
Proof.
  apply (print_summary_code strict_waf local_tester
           (with_result initial (blocked_record (PyInt 942100)))
           (snd (print_summary strict_waf local_tester
                   (with_result initial (blocked_record (PyInt 942100)))))
           0).
  vm_compute. reflexivity.
Defined.

(** X10: on a tester that has no record, [print_summary] prints its
    title and the total 0 and then raises ZeroDivisionError: it returns no
    code, and prints neither statistics nor the completion line. *)
Theorem print_summary_without_records (w : world) (self : WAFTester) (s : state) :
  results s = [] ->
  fst (print_summary w self s) = Raise ZeroDivisionError /\
  stdout (snd (print_summary w self s)) = stdout s ++ [OutSummaryTitle; OutTotal 0] /\
  ticks (snd (print_summary w self s)) = ticks s.
Proof.
  intros H. rewrite (print_summary_empty w self s H). cbn. auto.
Qed.

Lemma print_summary_without_records_witness :
  fst (print_summary strict_waf local_tester initial) = Raise ZeroDivisionError /\
  stdout (snd (print_summary strict_waf local_tester initial))
  = stdout initial ++ [OutSummaryTitle; OutTotal 0] /\
  ticks (snd (print_summary strict_waf local_tester initial)) = ticks initial.
Proof. apply (print_summary_without_records strict_waf local_tester initial). reflexivity. Defined.

(** ** Rule ids a set cannot hold, or [sorted] cannot order *)













(** ** The base URL *)

Lemma rstrip_slash_split (s : string) :
  exists n, s = (rstrip_slash s ++ slashes n)%string /\
            (rstrip_slash s = EmptyString -> s = slashes n).
Proof.
  induction s as [|c s (n & IH & IHe)].
  - exists 0%nat. split; reflexivity.
  - cbn [rstrip_slash]. destruct (rstrip_slash s) as [|c' r] eqn:E.
    + destruct (Ascii.eqb c "/") eqn:Ec.
      * apply Ascii.eqb_eq in Ec. subst c. exists (S n). cbn.
        rewrite (IHe eq_refl). split; [reflexivity|]. intros _. reflexivity.
      * exists n. cbn. split; [now rewrite (IHe eq_refl)|discriminate].
    + exists n. split; [|discriminate]. cbn. cbn in IH. now rewrite IH at 1.
Qed.

Lemma rstrip_slash_end (s : string) : ends_with_slash (rstrip_slash s) = false.
Proof.
  induction s as [|c s IH]; [reflexivity|].
  cbn [rstrip_slash]. destruct (rstrip_slash s) as [|c' r] eqn:E.
  - destruct (Ascii.eqb c "/") eqn:Ec; cbn; [reflexivity|assumption].
  - exact IH.
Qed.

Lemma rstrip_slash_fixed (s : string) : ends_with_slash s = false -> rstrip_slash s = s.
Proof.
  induction s as [|c s IH]; [reflexivity|].
  intros H. cbn [rstrip_slash]. destruct s as [|c' s'].
  - cbn in *. now rewrite H.
  - change (ends_with_slash (String c (String c' s'))) with (ends_with_slash (String c' s')) in H.
    rewrite (IH H). reflexivity.
Qed.

(** X13: the tester keeps the URL it is given without its trailing
    slashes, and only those are removed: the base URL does not end with a
    slash, the URL given is the base URL followed by slashes only, and a URL
    that has no trailing slash is kept as it is. The timeout is kept. *)
Theorem WAFTester_init_base_url (url : string) (t : Z) :
  timeout (WAFTester_init url t) = t /\
  ends_with_slash (base_url (WAFTester_init url t)) = false /\
  (exists n, url = (base_url (WAFTester_init url t) ++ slashes n)%string) /\
  (ends_with_slash url = false -> base_url (WAFTester_init url t) = url) /\
  WAFTester_init (base_url (WAFTester_init url t)) t = WAFTester_init url t.
Proof.
  cbn. split; [reflexivity|]. split; [apply rstrip_slash_end|]. split.
  - destruct (rstrip_slash_split url) as (n & H & _). now exists n.
  - split; [apply rstrip_slash_fixed|].
    unfold WAFTester_init. now rewrite (rstrip_slash_fixed _ (rstrip_slash_end url)).
Qed.

(** ** One call, one request *)

(** X14: a call of [test_request] calls the session exactly once, for
    the base URL followed by the path, with the headers given and the
    timeout of the tester, under the method asked for (whatever its case). A
    GET carries the query parameters and never the JSON body, a POST the
    JSON body and never the query parameters, any other method both. The
    call keeps the records and prints nothing. When the session gives a
    response or raises a RequestException the call returns; when the user
    interrupts the request it raises KeyboardInterrupt; an exception of
    another class that the session raises (the ValueError of requests for a
    timeout that is not positive) leaves the call as it is. *)
Theorem test_request_sends_one_request
    (w : world) (self : WAFTester) (method path : string)
    (params data headers : option strdict) (s : state) :
  exists rq,
    sent (snd (test_request w self method path params data headers s)) = sent s ++ [rq] /\
    results (snd (test_request w self method path params data headers s)) = results s /\
    stdout (snd (test_request w self method path params data headers s)) = stdout s /\
    request_url rq = (base_url self ++ path)%string /\
    request_headers rq = headers /\
    request_timeout rq = timeout self /\
    upper (request_method rq) = upper method /\
    request_params rq = (if (upper method =? "POST")%string then None else params) /\
    request_json rq = (if (upper method =? "GET")%string then None else data) /\
    match respond w (List.length (sent s)) rq with
    | Response _ _ | RequestException _ =>
        exists v, fst (test_request w self method path params data headers s) = Return v
    | Interrupted =>
        fst (test_request w self method path params data headers s) = Raise KeyboardInterrupt
    | Raised str_e =>
        fst (test_request w self method path params data headers s)
        = Raise (SessionError str_e)
    end.
Proof.
  exists (request_of self method path params data headers).
  rewrite test_request_eq. cbv zeta.
  split; [destruct (returned _ _); reflexivity|].
  split; [destruct (returned _ _); reflexivity|].
  split; [destruct (returned _ _); reflexivity|].
  assert (Hout : forall rq rt,
    match respond w (List.length (sent s)) rq with
    | Response _ _ | RequestException _ =>
        exists v, fst match returned (respond w (List.length (sent s)) rq) rt with
                      | Some v => (Return v, after_request s rq)
                      | None => (Raise (raised (respond w (List.length (sent s)) rq)),
                                 {| results := results s; sent := sent s ++ [rq];
                                    ticks := S (ticks s); stdout := stdout s |})
                      end = Return v
    | Interrupted =>
        fst match returned (respond w (List.length (sent s)) rq) rt with
            | Some v => (Return v, after_request s rq)
            | None => (Raise (raised (respond w (List.length (sent s)) rq)),
                       {| results := results s; sent := sent s ++ [rq];
                          ticks := S (ticks s); stdout := stdout s |})
            end = Raise KeyboardInterrupt
    | Raised str_e =>
        fst match returned (respond w (List.length (sent s)) rq) rt with
            | Some v => (Return v, after_request s rq)
            | None => (Raise (raised (respond w (List.length (sent s)) rq)),
                       {| results := results s; sent := sent s ++ [rq];
                          ticks := S (ticks s); stdout := stdout s |})
            end = Raise (SessionError str_e)
    end).
  { intros rq rt. destruct (respond w _ rq) as [st [v|]|e| |e]; cbn;
      solve [reflexivity | eexists; reflexivity]. }
  unfold request_of in *.
  destruct (upper method =? "GET")%string eqn:Eg.
  - apply String.eqb_eq in Eg. rewrite Eg.
    repeat (split; [reflexivity|]). apply Hout.
  - destruct (upper method =? "POST")%string eqn:Ep.
    + apply String.eqb_eq in Ep. rewrite Ep.
      repeat (split; [reflexivity|]). apply Hout.
    + repeat (split; [reflexivity|]). apply Hout.
Qed.

(** ** Bodies that are not a JSON object *)

(** X15: a response whose body is not JSON is recorded like any other:
    [run_test] returns a record with the status of the response, blocked
    exactly when that status is 403, and with no rule id and no message, and
    it appends that record to the results. *)
Theorem run_test_body_not_json
    (w : world) (self : WAFTester) (nm cat method path : string)
    (params data headers : option strdict) (expected : bool) (s : state) (status : Z) :
  respond w (List.length (sent s)) (request_of self method path params data headers)
  = Response status None ->
  exists r,
    fst (run_test w self nm cat method path params data headers expected s) = Return r /\
    results (snd (run_test w self nm cat method path params data headers expected s))
    = results s ++ [r] /\
    status_code r = status /\ actual_blocked r = (status =? 403) /\
    rule_id r = PyNone /\ message r = PyNone /\ error r = PyNone /\
    name r = nm /\ category r = cat /\ expected_blocked r = expected.
Proof.
  intros H.
  pose proof (test_request_eq w self method path params data headers s) as T.
  cbv zeta in T. rewrite H in T. cbn [returned] in T.
  rewrite (run_test_eq w self nm cat method path params data headers expected _ _ _ _ _ T).
  cbv zeta. eexists. repeat split.
Qed.

Lemma run_test_body_not_json_witness :
  exists r,
    fst (run_test open_target local_tester "Normal GET Request" "Legitimate" "GET" "/api/users"
           None None None false initial) = Return r /\
    results (snd (run_test open_target local_tester "Normal GET Request" "Legitimate" "GET"
                    "/api/users" None None None false initial))
    = results initial ++ [r] /\
    status_code r = 200 /\ actual_blocked r = (200 =? 403) /\
    rule_id r = PyNone /\ message r = PyNone /\ error r = PyNone /\
    name r = "Normal GET Request" /\ category r = "Legitimate" /\ expected_blocked r = false.
Proof.
  apply (run_test_body_not_json open_target local_tester "Normal GET Request" "Legitimate"
           "GET" "/api/users" None None None false initial 200).
  reflexivity.
Defined.

(** X16: a response whose body is JSON but not an object (an array, a
    string, a number, null) makes [run_test] raise AttributeError at its
    first [response.get]: the request was sent, no record is made and nothing
    is printed. *)
Theorem run_test_body_not_an_object
    (w : world) (self : WAFTester) (nm cat method path : string)
    (params data headers : option strdict) (expected : bool) (s : state)
    (status : Z) (body : pyval) :
  respond w (List.length (sent s)) (request_of self method path params data headers)
  = Response status (Some body) ->
  is_dict body = false ->
  run_test w self nm cat method path params data headers expected s
  = (Raise AttributeError,
     after_request s (request_of self method path params data headers)).
Proof.
  intros H Hb.
  pose proof (test_request_eq w self method path params data headers s) as T.
  cbv zeta in T. rewrite H in T. cbn [returned] in T.
  rewrite (run_test_eq w self nm cat method path params data headers expected _ _ _ _ _ T).
  destruct body; try reflexivity. discriminate Hb.
Qed.

Lemma run_test_body_not_an_object_witness :
  run_test array_target local_tester "Normal GET Request" "Legitimate" "GET" "/api/users"
    None None None false initial
  = (Raise AttributeError,
     after_request initial
       (request_of local_tester "GET" "/api/users" None None None)).
Proof.
  apply (run_test_body_not_an_object array_target local_tester "Normal GET Request"
           "Legitimate" "GET" "/api/users" None None None false initial 200 (PyList [])).
  - reflexivity.
  - reflexivity.
Defined.

(** ** Complete runs *)




(** ** Response times under a finite clock *)

(** X18: when the clock only shows finite numbers, no response time of
    any run is NaN, so the slowest-tests list of the run is in order: it has
    [min 5 (number of records)] entries and runs from the longest response
    time down, and no record left out is slower than one listed. *)
Theorem main_slow_tests_ordered (w : world) (args : Args) :
  finite_clock w ->
  let rs := results (snd (main w args)) in
  Forall (fun r => is_nan (response_time r) = false) rs /\
  List.length (slow_tests rs) = Nat.min 5 (List.length rs) /\
  StronglySorted (fun a b => (response_time b <=? response_time a)%float = true)
    (slow_tests rs) /\
  forall a b, In a (slow_tests rs) -> In b rs ->
              In b (slow_tests rs) \/ (response_time b <=? response_time a)%float = true.
Proof.
  intros Hc rs.
  assert (Hnum : Forall (fun r => is_nan (response_time r) = false) rs).
  { eapply Forall_impl; [|apply main_results_classified].
    intros r (_ & _ & n & ->). now apply elapsed_ms_number. }
  split; [exact Hnum|]. unfold slow_tests.
  set (lt := fun a b : TestResult => (response_time b <? response_time a)%float).
  set (R := fun a b : TestResult => (response_time b <=? response_time a)%float = true).
  assert (S : StronglySorted R (sort_by lt rs)).
  { apply (sort_by_sorted lt R (fun r => is_nan (response_time r) = false)); [| | |exact Hnum].
    - intros x y _ _ H. now apply float_lt_le.
    - intros x y Hx Hy H. now apply float_not_lt_le.
    - intros x y z _ _ _ H1 H2. unfold R in *. eapply float_le_trans; eassumption. }
  rewrite <- (firstn_skipn 5 (sort_by lt rs)) in S.
  apply sorted_app_inv in S. destruct S as [S1 S2].
  split; [now rewrite length_firstn, sort_by_length|].
  split; [exact S1|].
  intros a b Ha Hb.
  apply (Permutation_in _ (sort_by_perm lt rs)) in Hb.
  rewrite <- (firstn_skipn 5 (sort_by lt rs)) in Hb. apply in_app_or in Hb.
  destruct Hb as [Hb|Hb]; [now left|right; now apply S2].
Qed.

Lemma coarse_clock_finite : finite_clock coarse_clock_waf.
Proof. intros n. cbn. destruct (Nat.even n); reflexivity. Qed.

Lemma main_slow_tests_ordered_witness :
  Forall (fun r => is_nan (response_time r) = false)
    (results (snd (main coarse_clock_waf console_args))) /\
  List.length (slow_tests (results (snd (main coarse_clock_waf console_args))))
  = Nat.min 5 (List.length (results (snd (main coarse_clock_waf console_args)))) /\
  StronglySorted (fun a b => (response_time b <=? response_time a)%float = true)
    (slow_tests (results (snd (main coarse_clock_waf console_args)))) /\
  forall a b, In a (slow_tests (results (snd (main coarse_clock_waf console_args)))) ->
              In b (results (snd (main coarse_clock_waf console_args))) ->
              In b (slow_tests (results (snd (main coarse_clock_waf console_args)))) \/
              (response_time b <=? response_time a)%float = true.
Proof.
  apply (main_slow_tests_ordered coarse_clock_waf console_args).
  exact coarse_clock_finite.
Defined.

(** ** The blocks of the summary as printed *)

Lemma skipn_length_app {A} (l x : list A) : skipn (List.length l) (l ++ x) = x.
Proof. induction l as [|a l IH]; [reflexivity|exact IH]. Qed.

(** What [print_summary] prints: the first blocks, then only lines of the
    rule block and the completion line, if any. *)
Lemma print_summary_printed (w : world) (self : WAFTester) (s : state) :
  (results s = [] /\ printed_by (print_summary w self) s = [OutSummaryTitle; OutTotal 0]) \/
  (results s <> [] /\
   exists tail, printed_by (print_summary w self) s = summary_head (results s) ++ tail /\
                forallb after_head tail = true).
Proof.
  unfold printed_by. destruct (results s) as [|r0 rs0] eqn:Hrs.
  - left. split; [reflexivity|]. rewrite (print_summary_empty w self s Hrs).
    cbn [snd stdout with_output]. apply skipn_length_app.
  - right. split; [discriminate|].
    assert (Hne : results s <> []) by (rewrite Hrs; discriminate).
    rewrite (print_summary_eq w self s Hne). cbv zeta. rewrite Hrs.
    destruct (py_set _) as [[|k ids]|].
    + exists [OutCompleted (datetime_now w (ticks s))].
      cbn [snd stdout summarised]. split; [apply skipn_length_app|reflexivity].
    + destruct (py_sorted _) as [ordered|].
      * exists (OutRulesTitle :: map (rule_line (r0 :: rs0)) ordered
                ++ [OutCompleted (datetime_now w (ticks s))]).
        cbn [snd stdout summarised]. rewrite <- app_assoc.
        split; [apply skipn_length_app|].
        cbn [forallb after_head andb]. rewrite forallb_app. cbn.
        rewrite andb_true_r. apply forallb_forall. intros o Ho.
        apply in_map_iff in Ho. now destruct Ho as (x & <- & _).
      * exists [OutRulesTitle]. cbn [snd stdout with_output].
        split; [apply skipn_length_app|reflexivity].
    + exists []. cbn [snd stdout with_output]. rewrite app_nil_r.
      split; [apply skipn_length_app|reflexivity].
Qed.

Lemma flat_map_after_head {B} (f : output -> list B) (tail : list output) :
  f OutRulesTitle = [] -> (forall k c, f (OutRule k c) = []) ->
  (forall d, f (OutCompleted d) = []) ->
  forallb after_head tail = true -> flat_map f tail = [].
Proof.
  intros H1 H2 H3 Ht. apply flat_map_nil. intros o Ho.
  rewrite forallb_forall in Ht. specialize (Ht o Ho). destruct o; try discriminate; auto.
Qed.

(** X6: [print_summary] prints one line per category that occurs among
    the records, in strictly ascending order of the category names, and the
    line of a category shows the number of its records and the number of
    them that passed. Without records it prints no such line. *)
Theorem category_lines_sorted (w : world) (self : WAFTester) (s : state) :
  exists cats,
    flat_map category_of_line (printed_by (print_summary w self) s)
    = map (fun c => (c, st_total (stats_of c (results s)), st_passed (stats_of c (results s))))
        cats /\
    StronglySorted (fun a b => String.ltb a b = true) cats /\
    forall c, In c cats <-> exists r, In r (results s) /\ category r = c.
Proof.
  destruct (print_summary_printed w self s) as [[Hrs ->]|(_ & tail & -> & Ht)].
  - exists []. rewrite Hrs. split; [reflexivity|]. split; [constructor|].
    intros c. split; [intros []|intros (r & [] & _)].
  - destruct (summary_head_categories (results s)) as (cats & H1 & H2 & H3).
    exists cats. rewrite flat_map_app, H1.
    rewrite (flat_map_after_head category_of_line tail) by (auto; reflexivity).
    rewrite app_nil_r. auto.
Qed.



(** ** An exception of the session at the health check *)

(** X19: when the session raises, at the health check, an exception that
    is neither a RequestException nor the interrupt (requests does so with
    a ValueError when the timeout is 0 or negative), the program prints the
    error line with the text of the exception and exits with code 1: the
    session was called once, no test was run, no record made. *)
Theorem main_session_error (w : world) (args : Args) (str_e : string) :
  respond w 0%nat (health_request args) = Raised str_e ->
  main w args = (1, {| results := []; sent := [health_request args]; ticks := 1;
                       stdout := [OutError str_e] |}).
Proof.
  intros H. unfold main. rewrite main_try_eq, H. reflexivity.
Qed.

Lemma main_session_error_witness :
  main open_target zero_timeout_args
  = (1, {| results := []; sent := [health_request zero_timeout_args]; ticks := 1;
           stdout := [OutError (timeout_error 0)] |}).
Proof.
  apply (main_session_error open_target zero_timeout_args (timeout_error 0)).
  reflexivity.
Defined.
